(** * virtual-conference: the schedule model and the registrant sync

    A shallow embedding of [core/schedule.py] (time-slot helpers, YouTube
    title rules, [Day.get_sessions], the [Session] streaming life cycle and
    [Session.schedule_zoom]) and of [auth0_helper.py] ([get_all]).

    Python exceptions are values of [exn]; code that talks to a provider
    appends the call to an event trace; the spreadsheet is a finite map
    from (row, column name) to the cell's value. *)

From Stdlib Require Import ZArith Ascii Lia Bool.
From stdpp Require Import base option list sorting gmap strings pretty.

Local Open Scope Z_scope.

(* ===================================================================== *)
(** * Python values used by the scripts *)
(* ===================================================================== *)

Module Py.

(** The exceptions the modelled code can raise. *)
Inductive exn : Type :=
| IndexError
| KeyError
| TypeError
| AttributeError
| ValueError
| NameError
| SystemExit (code : Z).

Inductive result (A : Type) : Type :=
| Ok (a : A)
| Raise (e : exn).
Arguments Ok {A} a.
Arguments Raise {A} e.

Definition rbind {A B} (r : result A) (k : A -> result B) : result B :=
  match r with
  | Ok a => k a
  | Raise e => Raise e
  end.

(** [len(s)] *)
Definition len (s : string) : Z := Z.of_nat (String.length s).

(** [s[0:n]] for a literal [n >= 0] *)
Definition slice0 (n : nat) (s : string) : string := String.substring 0 n s.

(** [s.replace(a, b)] where both [a] and [b] are one character long. *)
Fixpoint replace1 (a b : ascii) (s : string) : string :=
  match s with
  | EmptyString => EmptyString
  | String c s' => String (if Ascii.eqb c a then b else c) (replace1 a b s')
  end.

(** [c in s] for a one-character [c] *)
Fixpoint has_char (c : ascii) (s : string) : bool :=
  match s with
  | EmptyString => false
  | String d s' => Ascii.eqb d c || has_char c s'
  end.

(** [str(v)] of a cell value or other optional string: [None] prints as
    the word None. *)
Definition str_opt (v : option string) : string :=
  match v with
  | Some s => s
  | None => "None"
  end.

(** Truthiness of an optional string: [None] and the empty string are
    false. *)
Definition truthy (v : option string) : bool :=
  match v with
  | Some (String _ _) => true
  | _ => false
  end.

(** [s.startswith(p)], returning what follows the prefix. *)
Fixpoint strip_prefix (p s : string) : option string :=
  match p, s with
  | EmptyString, _ => Some s
  | String a p', String b s' => if Ascii.eqb a b then strip_prefix p' s' else None
  | String _ _, EmptyString => None
  end.

Definition is_digit (c : ascii) : bool :=
  let n := nat_of_ascii c in (48 <=? n)%nat && (n <=? 57)%nat.

(** [int(c)] for an ASCII digit *)
Definition digit_val (c : ascii) : Z := Z.of_nat (nat_of_ascii c) - 48.

Definition digit_char (d : Z) : ascii := ascii_of_nat (Z.to_nat (d + 48)).

(** ["%02d" % n] for [0 <= n < 100], which is what [strftime] prints for
    an hour or a minute. *)
Definition two_digits (n : Z) : string :=
  String (digit_char (n / 10)) (String (digit_char (n mod 10)) EmptyString).

End Py.
Import Py.

(* ===================================================================== *)
(** * core/schedule.py: constants and pure helpers *)
(* ===================================================================== *)

Definition CONFERENCE_NAME : string := "VIS Testing 2021".
Definition CONFERENCE_YEAR : Z := 2021.

(** [conf_tz = timezone(-timedelta(hours=5))], as an offset in minutes. *)
Definition conf_tz : Z := - (5 * 60).

(** A [datetime] with the fields the scripts set; seconds are always 0. *)
Record datetime : Type := mk_datetime {
  dt_year : Z;
  dt_month : Z;
  dt_day : Z;
  dt_hour : Z;
  dt_minute : Z;
  dt_tz : Z
}.

Definition is_leap (y : Z) : bool :=
  ((y mod 4 =? 0) && negb (y mod 100 =? 0)) || (y mod 400 =? 0).

Definition days_in_month (y m : Z) : Z :=
  if m =? 2 then (if is_leap y then 29 else 28)
  else if (m =? 4) || (m =? 6) || (m =? 9) || (m =? 11) then 30
  else 31.

(** The [datetime(...)] constructor: [ValueError] on a field out of range. *)
Definition new_datetime (y m d hh mm tz : Z) : result datetime :=
  if (1 <=? m) && (m <=? 12) && (1 <=? d) && (d <=? days_in_month y m)
     && (0 <=? hh) && (hh <=? 23) && (0 <=? mm) && (mm <=? 59)
  then Ok (mk_datetime y m d hh mm tz)
  else Raise ValueError.

(** [match_timeslot = re.compile("(\d\d)(\d\d)-(\d\d)(\d\d)")] applied with
    [match]: anchored at the start only.  The four groups are returned as
    numbers, the way [parse_time_slot] reads them with [int]. *)
Definition match_timeslot (s : string) : option (Z * Z * Z * Z) :=
  match s with
  | String a (String b (String c (String d (String dash
      (String e (String f (String g (String h _)))))))) =>
      if is_digit a && is_digit b && is_digit c && is_digit d
         && Ascii.eqb dash "-"
         && is_digit e && is_digit f && is_digit g && is_digit h
      then Some (10 * digit_val a + digit_val b, 10 * digit_val c + digit_val d,
                 10 * digit_val e + digit_val f, 10 * digit_val g + digit_val h)
      else None
  | _ => None
  end.

(** [parse_time_slot(time_slot, month, day)].  The argument is a cell
    value: [re.match] raises [TypeError] on [None], and a failed match
    makes [m.group] an [AttributeError]. *)
Definition parse_time_slot (time_slot : option string) (month day : Z)
  : result (datetime * datetime) :=
  match time_slot with
  | None => Raise TypeError
  | Some s =>
      match match_timeslot s with
      | None => Raise AttributeError
      | Some (h1, m1, h2, m2) =>
          rbind (new_datetime CONFERENCE_YEAR month day h1 m1 conf_tz) (fun start =>
          rbind (new_datetime CONFERENCE_YEAR month day h2 m2 conf_tz) (fun end_ =>
          Ok (start, end_)))
      end
  end.

(** [format_time_slot(start, end)] *)
Definition format_time_slot (start end_ : datetime) : string :=
  (two_digits (dt_hour start) +:+ two_digits (dt_minute start)) +:+ "-" +:+
  (two_digits (dt_hour end_) +:+ two_digits (dt_minute end_)).

(** [make_youtube_title(title)] *)
Definition make_youtube_title (title : string) : string :=
  let title := replace1 ">" " " (replace1 "<" " " title) in
  if 100 <? len title then slice0 99 title else title.

(** [make_youtube_description(description)] *)
Definition make_youtube_description (description : string) : string :=
  let description := replace1 ">" " " (replace1 "<" " " description) in
  if 5000 <? len description then slice0 4999 description else description.

(** [match_youtube_id(url)]: the group [(.+)] after the literal prefix is
    the rest of the line, and must not be empty. *)
Fixpoint line_of (s : string) : string :=
  match s with
  | EmptyString => EmptyString
  | String c s' => if Ascii.eqb c "010" then EmptyString else String c (line_of s')
  end.

Definition match_youtube_id (url : option string) : result string :=
  match url with
  | None => Raise TypeError
  | Some u =>
      match strip_prefix "https://youtu.be/" u with
      | None => Raise AttributeError
      | Some rest =>
          match line_of rest with
          | EmptyString => Raise AttributeError
          | g => Ok g
          end
      end
  end.

(* ===================================================================== *)
(** * The spreadsheet, the providers and the effect monad *)
(* ===================================================================== *)

(** A day sheet: the value of the cell at a row and a named column.  An
    absent key is an empty cell, whose [value] is [None].  The accessor
    module [core.excel_db] is not part of the sources; [entry(row, item)]
    is taken to address the cell of column [item] in row [row]. *)
Abbreviation sheet := (gmap (nat * string) string).

(** A row of the [computers] table. *)
Record computer : Type := mk_computer {
  c_id : option string;
  c_stream_key : option string;
  c_stream_key_id : option string
}.

(** What the providers answer.  Only the parts of an answer the code reads
    are kept: the [items] of a YouTube list call, the users of the Zoom
    account, the meeting Zoom creates and the HTTP status of the
    live-stream configuration patch. *)
Record providers : Type := mk_providers {
  (** [liveBroadcasts().list(id=...)]: the [lifeCycleStatus] of each item *)
  yt_broadcasts : string -> list string;
  (** [liveStreams().list(id=...)]: [streamStatus] and health of each item *)
  yt_streams : option string -> list (string * string);
  (** [GET /users]: [last_name] and [id] of each user *)
  zoom_users : list (string * string);
  (** [POST /users/{host}/meetings]: [id] and, if present, [join_url] of the meeting
      created, or [None] for an answer that has no [id] *)
  zoom_meeting : string -> option (Z * option string);
  (** [PATCH /meetings/{id}/livestream]: the status code *)
  zoom_livestream_code : Z;
  (** the eight characters [generate_password()] draws *)
  drawn_password : string
}.

(** The calls that leave the process, in the order they are made. *)
Inductive effect : Type :=
| Print (msg : string)
| Sleep (seconds : Z)
| YtBroadcastList (id : string)
| YtStreamList (id : option string)
| YtBind (id : string) (stream_id : option (option string))
| YtTransition (broadcast_status : string) (id : string)
| YtVideoEmbeddable (id : string)
| ZoomLivestreamStatus (url : string) (action : string)
| ZoomGetUsers
| ZoomCreateMeeting (host : string) (topic : string) (duration : Z)
    (password : string) (alternative_hosts : string)
| ZoomLivestream (meeting_id : Z) (stream_key : option string)
    (page_url : option string).

(** A computation reads and writes the sheet, appends to the trace and
    either returns or raises. *)
Definition M (A : Type) : Type := sheet -> result A * sheet * list effect.

#[global] Instance M_ret : MRet M := fun A a sh => (Ok a, sh, []).

#[global] Instance M_bind : MBind M := fun A B k m sh =>
  match m sh with
  | (Ok a, sh1, t1) =>
      match k a sh1 with
      | (r, sh2, t2) => (r, sh2, t1 ++ t2)
      end
  | (Raise e, sh1, t1) => (Raise e, sh1, t1)
  end.

Definition emit (e : effect) : M unit := fun sh => (Ok tt, sh, [e]).
Definition print (msg : string) : M unit := emit (Print msg).
Definition lift {A} (r : result A) : M A := fun sh => (r, sh, []).
Definition read {A} (f : sheet -> A) : M A := fun sh => (Ok (f sh), sh, []).
Definition try_read {A} (f : sheet -> result A) : M A := fun sh => (f sh, sh, []).
Definition write (row : nat) (item : string) (v : string) : M unit :=
  fun sh => (Ok tt, <[(row, item) := v]> sh, []).
Definition raise {A} (e : exn) : M A := lift (Raise e).

(** [l[i]] with Python's negative indices. *)
Definition index {A} (l : list A) (i : Z) : result A :=
  let n := Z.of_nat (length l) in
  let j := if i <? 0 then i + n else i in
  if (0 <=? j) && (j <? n) then
    match l !! Z.to_nat j with
    | Some a => Ok a
    | None => Raise IndexError
    end
  else Raise IndexError.

(** [for x in l: body(x)] *)
Fixpoint for_each {A} (l : list A) (body : A -> M unit) : M unit :=
  match l with
  | [] => mret tt
  | x :: l' => body x;; for_each l' body
  end.

(** [range(0, n)] *)
Definition range0 (n : nat) : list Z := Z.of_nat <$> seq 0 n.

(** [Database.get_computer(computer_id)] *)
Definition get_computer (computers : list computer) (computer_id : option string)
  : result computer :=
  index (filter (fun c => c_id c = computer_id) computers) 0.

(* ===================================================================== *)
(** * Day and Session *)
(* ===================================================================== *)

Record Session : Type := mk_session {
  event : string;
  name : string;
  timeslots : list nat
}.

(** The parts of a [Day] and its [Database] that a [Session] reaches
    through [self.day]. *)
Record Day : Type := mk_day {
  month : Z;
  day : Z;
  max_row : nat;
  computers : list computer
}.

Definition append_timeslot (r : nat) (s : Session) : Session :=
  mk_session (event s) (name s) (timeslots s ++ [r]).

(** One iteration of the loop of [Day.get_sessions]. *)
Definition get_sessions_row (sh : sheet) (include_breaks : bool)
    (sessions : gmap string Session) (r : nat) : result (gmap string Session) :=
  let event_name := sh !! (r, "Event") in
  let session_name := sh !! (r, "Session") in
  if negb include_breaks && bool_decide (event_name = Some "BREAK") then Ok sessions
  else
    match event_name with
    | None => Ok sessions
    | Some ev =>
        match session_name with
        | None => Raise TypeError
        | Some sn =>
            let session_key := ev +:+ "-" +:+ sn in
            let sessions :=
              match sessions !! session_key with
              | None => <[session_key := mk_session ev sn []]> sessions
              | Some _ => sessions
              end in
            Ok (alter (append_timeslot r) session_key sessions)
        end
    end.

Fixpoint get_sessions_rows (sh : sheet) (include_breaks : bool)
    (rows : list nat) (sessions : gmap string Session) : result (gmap string Session) :=
  match rows with
  | [] => Ok sessions
  | r :: rows' =>
      rbind (get_sessions_row sh include_breaks sessions r)
            (get_sessions_rows sh include_breaks rows')
  end.

(** [range(3, max_row + 1)] *)
Definition session_rows (d : Day) : list nat := seq 3 (max_row d + 1 - 3).

(** [Day.get_sessions(include_breaks)].  The dict it returns is read as a
    finite map; the order of its keys is not kept. *)
Definition get_sessions (d : Day) (sh : sheet) (include_breaks : bool)
  : result (gmap string Session) :=
  get_sessions_rows sh include_breaks (session_rows d) ∅.

Section SessionMethods.

Variable d : Day.
Variable api : providers.
Variable self : Session.

(** [self.timeslot_entry(t, item).value] *)
Definition timeslot_value (t : Z) (item : string) (sh : sheet)
  : result (option string) :=
  rbind (index (timeslots self) t) (fun r => Ok (sh !! (r, item))).

(** [self.timeslot_entry(t, item).value = v] *)
Definition set_timeslot_value (t : Z) (item : string) (v : string) : M unit :=
  r ← lift (index (timeslots self) t); write r item v.

Definition num_timeslots : Z := Z.of_nat (length (timeslots self)).

(** [Session.session_time()] *)
Definition session_time (sh : sheet) : result (datetime * datetime) :=
  rbind (timeslot_value 0 "Time Slot" sh) (fun first =>
  rbind (parse_time_slot first (month d) (day d)) (fun a =>
  rbind (timeslot_value (num_timeslots - 1) "Time Slot" sh) (fun last =>
  rbind (parse_time_slot last (month d) (day d)) (fun b =>
  Ok (a.1, b.2))))).

(** [Session.event_session_title()] *)
Definition event_session_title : string :=
  if decide (event self = name self) then event self
  else event self +:+ " - " +:+ name self.

(** [Session.youtube_broadcast_id()] *)
Definition youtube_broadcast_id : M string :=
  url ← try_read (timeslot_value 0 "Youtube Broadcast");
  lift (match_youtube_id url).

(** [Session.setup_time()], in minutes *)
Definition setup_time : M Z :=
  ty ← try_read (timeslot_value 0 "Time Slot Type");
  mret (if decide (ty ≠ Some "Zoom Only") then 15 else 0).

End SessionMethods.

(** [s.split(sep)] for a one-character separator. *)
Fixpoint split_on (sep : ascii) (s : string) : list string :=
  match s with
  | EmptyString => [EmptyString]
  | String c s' =>
      if Ascii.eqb c sep then EmptyString :: split_on sep s'
      else
        match split_on sep s' with
        | [] => [String c EmptyString]
        | w :: ws => String c w :: ws
        end
  end.

Section Streaming.

Variable d : Day.
Variable api : providers.
Variable self : Session.

(** The notes one time slot adds in [Session.special_notes()]. *)
Definition slot_notes (sh : sheet) (r : nat) : gset string :=
  (if truthy (sh !! (r, "Special Notes"))
   then list_to_set (split_on "|" (default "" (sh !! (r, "Special Notes"))))
   else ∅)
  ∪ (if truthy (sh !! (r, "Speaker Photo")) then {["Has keynote speaker photo"]} else ∅)
  ∪ (if truthy (sh !! (r, "Custom Title Image")) then {["Uses custom title image"]} else ∅).

(** [Session.special_notes()] *)
Definition special_notes (sh : sheet) : gset string :=
  foldl (fun notes r => notes ∪ slot_notes sh r) ∅ (timeslots self).

(** [Session.get_zoom_meeting_id()] *)
Definition get_zoom_meeting_id : M (option string) :=
  try_read (timeslot_value self 0 "Zoom Meeting ID").

(** [Session.get_stream_key()] *)
Definition get_stream_key : M (option string) :=
  computer ← try_read (timeslot_value self 0 "Computer");
  c ← lift (get_computer (computers d) computer);
  mret (c_stream_key c).

(** [Session.get_stream_status()] *)
Definition get_stream_status : M (string * string) :=
  computer ← try_read (timeslot_value self 0 "Computer");
  c ← lift (get_computer (computers d) computer);
  let stream_key_id := c_stream_key_id c in
  emit (YtStreamList stream_key_id);;
  lift (index (yt_streams api stream_key_id) 0).

(** [Session.get_broadcast_status()] *)
Definition get_broadcast_status : M string :=
  id ← youtube_broadcast_id self;
  emit (YtBroadcastList id);;
  lift (index (yt_broadcasts api id) 0).

Definition zoom_status_url (meeting_id : option string) : string :=
  "https://api.zoom.us/v2/meetings/" +:+ str_opt meeting_id +:+ "/livestream/status".

(** [Session.start_streaming()] *)
Definition start_streaming : M unit :=
  timeslot_type ← try_read (timeslot_value self 0 "Time Slot Type");
  if decide (timeslot_type = Some "Zoom Only" ∨ timeslot_type = Some "Discord Only")
  then print "Not streaming Zoom/Discord only event"
  else
    computer ← try_read (timeslot_value self 0 "Computer");
    notes ← read special_notes;
    if decide ("Manual Stream" ∈ notes)
    then print ("Stream for " +:+ event_session_title self
                +:+ " must be assigned to computer " +:+ str_opt computer
                +:+ " and advanced manually")
    else
      computer_info ← lift (get_computer (computers d) computer);
      let stream_key := c_stream_key computer_info in
      let stream_key_id := c_stream_key_id computer_info in
      broadcast_status ← get_broadcast_status;
      if decide (broadcast_status ≠ "ready" ∧ broadcast_status ≠ "created")
      then
        id ← youtube_broadcast_id self;
        print ("Broadcast " +:+ id +:+ " is in state " +:+ broadcast_status
               +:+ ", and cannot be (re-)made live")
      else
        id ← youtube_broadcast_id self;
        print ("Attaching stream '" +:+ str_opt stream_key +:+ "' to '" +:+ id +:+ "'");;
        id ← youtube_broadcast_id self;
        emit (YtBind id (Some stream_key_id));;
        meeting_id ← get_zoom_meeting_id;
        emit (ZoomLivestreamStatus (zoom_status_url meeting_id) "start");;
        print "Sleeping 10s for Zoom live stream to begin";;
        emit (Sleep 10);;
        let retries := 0 in
        '(stream_status, stream_health) ← get_stream_status;
        (if decide (stream_status ≠ "active")
         then
           id ← youtube_broadcast_id self;
           print ("Stream on computer " +:+ str_opt computer
                  +:+ " (key " +:+ str_opt stream_key +:+ ") for"
                  +:+ "broadcast " +:+ id
                  +:+ " is not active (currently " +:+ stream_status +:+ ")."
                  +:+ "will wait 10s longer for Zoom and retry");;
           emit (Sleep 10);;
           let retries := retries + 1 in
           if decide (retries >= 2)
           then print ("Retried " +:+ pretty retries
                       +:+ " times and zoom stream is still not live!?")
           else mret tt
         else mret tt);;
        (if decide (stream_health ≠ "good")
         then print ("WARNING: Stream on computer " +:+ str_opt computer
                     +:+ " (key " +:+ str_opt stream_key
                     +:+ ") is active, but not healthy. Health status is "
                     +:+ stream_health)
         else mret tt);;
        id ← youtube_broadcast_id self;
        emit (YtTransition "live" id).

(** [Session.stop_streaming()] *)
Definition stop_streaming : M unit :=
  timeslot_type ← try_read (timeslot_value self 0 "Time Slot Type");
  if decide (timeslot_type = Some "Zoom Only" ∨ timeslot_type = Some "Discord Only")
  then print "No stream to stop for Zoom/Discord only event"
  else
    computer ← try_read (timeslot_value self 0 "Computer");
    notes ← read special_notes;
    if decide ("Manual Stream" ∈ notes)
    then print ("Stream for " +:+ event_session_title self
                +:+ " must be stopped manually")
    else
      broadcast_status ← get_broadcast_status;
      if decide (broadcast_status = "complete")
      then
        id ← youtube_broadcast_id self;
        print ("Broadcast " +:+ id
               +:+ " has already been made complete, skipping redundant transition")
      else if decide (broadcast_status ≠ "live")
      then
        id ← youtube_broadcast_id self;
        print ("Broadcast " +:+ id +:+ " is " +:+ broadcast_status
               +:+ ", not live, cannot make complete")
      else
        id ← youtube_broadcast_id self;
        emit (YtTransition "complete" id);;
        id ← youtube_broadcast_id self;
        emit (YtBind id None);;
        id ← youtube_broadcast_id self;
        emit (YtVideoEmbeddable id);;
        meeting_id ← get_zoom_meeting_id;
        emit (ZoomLivestreamStatus (zoom_status_url meeting_id) "stop").

End Streaming.

Section ScheduleZoom.

Variable d : Day.
Variable api : providers.
Variable self : Session.

(** The loop of [schedule_zoom] over the users of the Zoom account: the
    user whose last name is the computer's letter hosts, the others are
    alternative hosts. *)
Definition pick_hosts (computer : option string) (users : list (string * string))
  : option string * list string :=
  foldl (fun acc user =>
           if decide (Some user.1 = computer) then (Some user.2, acc.2)
           else (acc.1, acc.2 ++ [user.2]))
        (None, []) users.

Definition minutes_of (t : datetime) : Z := 60 * dt_hour t + dt_minute t.

(** [Session.schedule_zoom()].  Of the meeting request, the topic, the
    duration, the password and the alternative hosts are recorded in the
    trace; its start time and the agenda text ([str(self)], which reads
    the sheet and cannot raise once [session_time()] has returned) are
    not. *)
Definition schedule_zoom : M unit :=
  computer ← try_read (timeslot_value self 0 "Computer");
  emit ZoomGetUsers;;
  let users := zoom_users api in
  let found := pick_hosts computer users in
  '(host, alternative_hosts) ←
    (if truthy found.1 then mret (default "" found.1, found.2)
     else
       print "WARNING: TESTING CODE in schedule_zoom: Picking first host after not finding track ID Zoom host";;
       u ← lift (index users 0);
       mret (u.2, []));
  session_time ← try_read (session_time d self);
  setup ← setup_time self;
  let zoom_start := minutes_of session_time.1 - setup in
  let zoom_end := minutes_of session_time.2 + 10 in
  let meeting_topic := CONFERENCE_NAME +:+ ": " +:+ event_session_title self in
  let meeting_topic :=
    if 200 <? len meeting_topic then slice0 199 meeting_topic else meeting_topic in
  let password := drawn_password api in
  emit (ZoomCreateMeeting host meeting_topic (zoom_end - zoom_start) password
          (String.concat "," alternative_hosts));;
  let zoom_info := zoom_meeting api host in
  stream_key ← get_stream_key d self;
  page_url ← try_read (timeslot_value self 0 "Youtube Broadcast");
  info ← lift (match zoom_info with Some i => Ok i | None => Raise KeyError end);
  emit (ZoomLivestream info.1 stream_key page_url);;
  if decide (zoom_livestream_code api ≠ 204)
  then
    print ("ERROR: Failed to set live stream for Zoom meeting " +:+ meeting_topic);;
    raise (SystemExit 1)
  else
    for_each (range0 (length (timeslots self))) (fun t =>
      join_url ← lift (match info.2 with Some u => Ok u | None => Raise KeyError end);
      set_timeslot_value self t "Zoom URL" join_url;;
      set_timeslot_value self t "Zoom Meeting ID" (pretty info.1);;
      set_timeslot_value self t "Zoom Password" password).

End ScheduleZoom.

(* ===================================================================== *)
(** * auth0_helper.py: the registrant sync *)
(* ===================================================================== *)

Module Auth0.

(** A record of [registered.json].  The key ["emailed"] may be missing
    from a record on disk. *)
Record registrant : Type := mk_registrant {
  r_name : string;
  r_email : string;
  r_password : string;
  r_date : string;
  r_emailed : option bool
}.

(** The dict loaded from [registered.json], in the order of its keys. *)
Abbreviation registry := (list (string * registrant)).

Fixpoint reg_get (email : string) (reg : registry) : option registrant :=
  match reg with
  | [] => None
  | (k, x) :: reg' => if decide (k = email) then Some x else reg_get email reg'
  end.

(** [reg[email] = x]: an existing key keeps its place, a new one goes last. *)
Fixpoint reg_set (email : string) (x : registrant) (reg : registry) : registry :=
  match reg with
  | [] => [(email, x)]
  | (k, y) :: reg' =>
      if decide (k = email) then (k, x) :: reg' else (k, y) :: reg_set email x reg'
  end.

(** The entry [format_to_auth0] builds for the import file. *)
Record auth0_user : Type := mk_auth0_user {
  u_email : string;
  u_email_verified : bool;
  u_name : string;
  u_password_hash : string
}.

(** [format_to_auth0(email, name, password_hash)] *)
Definition format_to_auth0 (email name password_hash : string) : auth0_user :=
  mk_auth0_user email true name password_hash.

(** A positional call of [format_to_auth0]: Python raises [TypeError]
    unless exactly three arguments are passed. *)
Definition call_format_to_auth0 (args : list string) : result auth0_user :=
  match args with
  | [email; name; password_hash] => Ok (format_to_auth0 email name password_hash)
  | _ => Raise TypeError
  end.

(** What [get_all] prints, writes and uploads, in order.  [PrintError e]
    is the message of the [except] clause for the exception [e]. *)
Inductive effect : Type :=
| Print (msg : string)
| PrintPasswordRequests (requests : list string)
| PrintError (e : exn)
| Sleep100ms
| PrintStats (new_since_last : Z)
| WriteStats (new_since_last : Z)
| WriteImports (file_name : string) (users : list auth0_user)
| SendToAuth0 (file_name : string)
| WriteRegistered (reg : registry).

(** What [get_all] finds outside itself: the answers of Eventbrite, the
    files on disk, the values drawn and the clock. *)
Record world : Type := mk_world {
  (** [page_count] of the attendee listing *)
  page_count : nat;
  (** page [i] of the listing: the (name, email) of its attendees, or
      [None] for an answer without the key ["attendees"] *)
  attendee_page : nat -> option (list (string * string));
  (** the files of the working directory, with their lines *)
  directory : list (string * list string);
  (** [session.email] is set *)
  session_email : bool;
  (** the ten characters drawn for a new registrant *)
  drawn_password : string -> string;
  (** [bcrypt.hashpw] with the salt drawn *)
  hashpw : string -> string;
  (** [str(datetime.utcnow())] *)
  now : string;
  (** ["new_since_last"] of [registration_stats.json], if the file exists *)
  stats : option Z;
  (** the name built from [time.time_ns()] for the import file *)
  import_file_name : string;
  (** [datetime.now()] at the end of the run, as printed *)
  finished_at : string
}.

(** The loop of [get_new_eventbrite] over pages [i], [i+1], ...: it stops
    at the first answer without attendees.  The progress messages it
    prints are not recorded. *)
Fixpoint fetch_pages (page : nat -> option (list (string * string)))
    (i count : nat) : list (string * string) :=
  match count with
  | O => []
  | S count' =>
      match page i with
      | None => []
      | Some attendees => attendees ++ fetch_pages page (S i) count'
      end
  end.

(** [get_new_eventbrite(session)] *)
Definition get_new_eventbrite (w : world) : list (string * string) :=
  fetch_pages (attendee_page w) 1 (page_count w).

(** Characters [str.strip()] removes, for code points below 256. *)
Definition is_space (c : ascii) : bool :=
  let n := nat_of_ascii c in
  ((9 <=? n) && (n <=? 13) || (28 <=? n) && (n <=? 32)
   || (n =? 133) || (n =? 160))%nat.

Fixpoint lstrip (s : string) : string :=
  match s with
  | EmptyString => EmptyString
  | String c s' => if is_space c then lstrip s' else s
  end.

Fixpoint rstrip (s : string) : string :=
  match s with
  | EmptyString => EmptyString
  | String c s' =>
      match rstrip s' with
      | EmptyString => if is_space c then EmptyString else String c EmptyString
      | t => String c t
      end
  end.

(** [s.strip()] *)
Definition strip (s : string) : string := rstrip (lstrip s).

(** The lines [get_any_password_requests] keeps from one file. *)
Definition request_lines (lines : list string) : list string :=
  filter (fun line => 0 < len line) (strip <$> lines).

Definition is_request_file (f : string) : bool :=
  bool_decide (is_Some (strip_prefix "password_request" f)).

(** [get_any_password_requests()], without its print. *)
Definition get_any_password_requests (w : world) : list string :=
  concat ((fun f => request_lines f.2)
            <$> filter (fun f => is_request_file f.1 = true) (directory w)).

(** [load_already_registered()].  The module binds no such name: its
    definition (lines 31 to 36) is a comment, and nothing imported
    provides it.  Evaluating the call raises [NameError]. *)
Definition load_already_registered : result registry := Raise NameError.

(** [send_register_email(email, session, logo_attachment, name, password)].
    The module neither defines nor imports this name either, so the call
    raises [NameError]. *)
Definition send_register_email (email name password : string) : result unit :=
  Raise NameError.

(** The first loop of [get_all]: a record without ["emailed"] gets
    [False], and every record not yet emailed is queued again. *)
Definition fill_emailed (x : registrant) : registrant :=
  mk_registrant (r_name x) (r_email x) (r_password x) (r_date x)
                (Some (default false (r_emailed x))).

Definition requeued (reg : registry) : list (string * string) :=
  (fun kx => (r_name kx.2, r_email kx.2))
    <$> filter (fun kx => default false (r_emailed kx.2) = false) reg.

(** The state of the second loop. *)
Record loop_state : Type := mk_loop_state {
  all_new : list auth0_user;
  all_registered : registry;
  trace : list effect
}.

Definition log (e : effect) (st : loop_state) : loop_state :=
  mk_loop_state (all_new st) (all_registered st) (trace st ++ [e]).

Inductive step : Type :=
| Continue (st : loop_state)
| Break (st : loop_state)
| Raised (e : exn) (st : loop_state).

Definition set_emailed (email : string) (st : loop_state) : result loop_state :=
  match reg_get email (all_registered st) with
  | None => Raise KeyError
  | Some x =>
      Ok (mk_loop_state (all_new st)
            (reg_set email (mk_registrant (r_name x) (r_email x) (r_password x)
                                          (r_date x) (Some true))
                     (all_registered st))
            (trace st))
  end.

Section GetAll.

Variable w : world.
Variable max_new : Z.
Variable password_requests : list string.

(** From [password = all_registered[email]["password"]] to the end of
    the iteration.  Whatever the [try] block raises is caught and
    printed. *)
Definition send_login (name email : string) (st : loop_state) : step :=
  match reg_get email (all_registered st) with
  | None => Raised KeyError st
  | Some x =>
      let password := r_password x in
      let st := if session_email w then log Sleep100ms st else st in
      if session_email w then
        match rbind (send_register_email email name password)
                    (fun _ => set_emailed email st) with
        | Ok st => Continue st
        | Raise e => Continue (log (PrintError e) st)
        end
      else Continue st
  end.

(** One iteration of the second loop of [get_all]. *)
Definition get_all_item (st : loop_state) (x : string * string) : step :=
  let name := x.1 in
  let email := x.2 in
  if decide (max_new > 0 ∧ Z.of_nat (length (all_new st)) >= max_new) then Break st
  else if decide (len email = 0) then Continue st
  else
    let known := reg_get email (all_registered st) in
    match known with
    | Some (mk_registrant _ _ _ _ None) => Raised KeyError st
    | Some (mk_registrant _ _ _ _ (Some true)) =>
        if decide (email ∈ password_requests)
        then send_login name email (log (Print ("Password request for " +:+ email)) st)
        else Continue st
    | _ =>
        let st := log (Print ("adding " +:+ email)) st in
        let password :=
          match known with
          | None => drawn_password w email
          | Some r => r_password r
          end in
        let password_hash := hashpw w password in
        match call_format_to_auth0 [email; name; password; password_hash] with
        | Raise e => Raised e st
        | Ok user =>
            let st :=
              mk_loop_state (all_new st ++ [user])
                (reg_set email (mk_registrant name email password (now w) (Some false))
                         (all_registered st))
                (trace st) in
            send_login name email st
        end
    end.

Fixpoint get_all_loop (st : loop_state) (results : list (string * string)) : step :=
  match results with
  | [] => Continue st
  | x :: results' =>
      match get_all_item st x with
      | Continue st' => get_all_loop st' results'
      | other => other
      end
  end.

End GetAll.

(** What is left when [get_all] returns or raises. *)
Record run : Type := mk_run {
  outcome : result unit;
  events : list effect
}.

(** The part of [get_all] after the second loop. *)
Definition finish (w : world) (transmit_to_auth0 : bool) (st : loop_state) : run :=
  let n := Z.of_nat (length (all_new st)) in
  let st := log (Print ("Got " +:+ pretty n +:+ " new registrations")) st in
  let new_since_last :=
    match stats w with
    | Some k => k + n
    | None => n
    end in
  let st := log (PrintStats new_since_last) st in
  let st := log (WriteStats new_since_last) st in
  let st :=
    if 0 <? n then
      let st := log (WriteImports (import_file_name w) (all_new st)) st in
      if transmit_to_auth0 then
        let st := log (Print "Sending to Auth0") st in
        let st := log (SendToAuth0 (import_file_name w)) st in
        log (WriteRegistered (all_registered st)) st
      else st
    else st in
  let st := log (Print ("New registrations processed at " +:+ finished_at w)) st in
  mk_run (Ok tt) (trace st).

(** [get_all(transmit_to_auth0, session, logo_attachment, max_new)].
    The events start after the attendee listing, whose progress messages
    are not recorded. *)
Definition get_all (w : world) (transmit_to_auth0 : bool) (max_new : Z) : run :=
  let results := get_new_eventbrite w in
  let password_requests := get_any_password_requests w in
  let printed := [PrintPasswordRequests password_requests] in
  match load_already_registered with
  | Raise e => mk_run (Raise e) printed
  | Ok all_registered =>
      let reg := (fun kx => (kx.1, fill_emailed kx.2)) <$> all_registered in
      let results := results ++ requeued reg in
      let st := mk_loop_state [] reg printed in
      match get_all_loop w max_new password_requests st results with
      | Continue st | Break st => finish w transmit_to_auth0 st
      | Raised e st => mk_run (Raise e) (trace st)
      end
  end.

End Auth0.

(* ===================================================================== *)
(** * Vocabulary of the properties *)
(* ===================================================================== *)

(** The text with every angle bracket blanked: what the rules of YouTube ask
    of a title that is short enough. *)
Definition blank_angle (c : ascii) : ascii :=
  if decide (c = "<"%char ∨ c = ">"%char) then " "%char else c.

Fixpoint blank_angles (s : string) : string :=
  match s with
  | EmptyString => EmptyString
  | String c s' => String (blank_angle c) (blank_angles s')
  end.


(** A string of the form HHMM-HHMM: nine characters, digits around a
    dash, hours from 00 to 23 and minutes from 00 to 59. *)
Definition is_clock (a b c d : ascii) : bool :=
  is_digit a && is_digit b && is_digit c && is_digit d
  && (10 * digit_val a + digit_val b <? 24)
  && (10 * digit_val c + digit_val d <? 60).

Definition is_hhmm_hhmm (s : string) : bool :=
  match s with
  | String a (String b (String c (String d (String dash
      (String e (String f (String g (String h EmptyString)))))))) =>
      is_clock a b c d && bool_decide (dash = "-"%char) && is_clock e f g h
  | _ => false
  end.

(** A month and a day of the conference year. *)
Definition valid_date (m dd : Z) : Prop :=
  1 <= m <= 12 ∧ 1 <= dd <= days_in_month CONFERENCE_YEAR m.

(** A time printed as HHMM. *)
Definition clock (t : datetime) : string :=
  two_digits (dt_hour t) +:+ two_digits (dt_minute t).

(** A time of the day's date, in the conference year and time zone. *)
Definition on_conference_day (d : Day) (t : datetime) : Prop :=
  dt_year t = CONFERENCE_YEAR ∧ dt_month t = month d ∧ dt_day t = day d
  ∧ dt_tz t = conf_tz ∧ 0 <= dt_hour t <= 23 ∧ 0 <= dt_minute t <= 59.

(* ===================================================================== *)
(** * A small conference day, used to run the model *)
(* ===================================================================== *)

Module Sample.

Definition opening_sheet : sheet :=
  list_to_map
    [ ((3%nat, "Event"), "VIS"); ((3%nat, "Session"), "Opening");
      ((3%nat, "Time Slot"), "0900-0930"); ((3%nat, "Computer"), "A");
      ((3%nat, "Time Slot Type"), "Live");
      ((3%nat, "Youtube Broadcast"), "https://youtu.be/abc123");
      ((3%nat, "Zoom Meeting ID"), "987");
      ((4%nat, "Event"), "VIS"); ((4%nat, "Session"), "Opening");
      ((4%nat, "Time Slot"), "0930-1015"); ((4%nat, "Computer"), "A");
      ((4%nat, "Time Slot Type"), "Live") ].

Definition tuesday : Day :=
  mk_day 10 26 4 [mk_computer (Some "A") (Some "key-a") (Some "stream-a")].

Definition opening : Session := mk_session "VIS" "Opening" [3%nat; 4%nat].

(** Providers that report the broadcast in the given state and the
    stream with the given status and health, and answer the live-stream
    configuration with the given code. *)
Definition youtube (broadcast stream health : string) (code : Z) : providers :=
  mk_providers (fun _ => [broadcast]) (fun _ => [(stream, health)])
               [("A", "host-a"); ("B", "host-b")]
               (fun _ => Some (555, Some "https://zoom.us/j/555"))
               code "s3cr3tpw".

End Sample.

(** The calls of a trace that reach a provider or the clock: everything
    but the messages printed. *)
Definition is_call (e : effect) : bool :=
  match e with
  | Print _ => false
  | _ => true
  end.

Definition calls (tr : list effect) : list effect := filter (fun e => is_call e = true) tr.

(** Running a computation: what a bind does once its first part is known. *)
Definition prepend {B} (t : list effect) (x : result B * sheet * list effect)
  : result B * sheet * list effect :=
  match x with
  | (r, sh, t') => (r, sh, t ++ t')
  end.

(** The live-stream configuration patch of [schedule_zoom] is in the trace. *)
Definition is_livestream_patch (e : effect) : bool :=
  match e with
  | ZoomLivestream _ _ _ => true
  | _ => false
  end.

Definition patch_issued (tr : list effect) : Prop :=
  existsb is_livestream_patch tr = true.

(** The sheet after the Zoom cells of the given rows are filled in. *)
Definition zoom_cells (url id password : string) (rows : list nat) (sh : sheet) : sheet :=
  foldl (fun sh r =>
           <[(r, "Zoom Password") := password]>
             (<[(r, "Zoom Meeting ID") := id]>
                (<[(r, "Zoom URL") := url]> sh)))
        sh rows.

(** A computation that leaves the sheet alone and does not issue the
    live-stream configuration patch. *)
Definition quiet {A} (m : M A) : Prop :=
  ∀ sh, (m sh).1.2 = sh ∧ existsb is_livestream_patch (m sh).2 = false.

(** What [schedule_zoom] may leave behind, started on sheet [sh]: with a
    code other than 204 the sheet is as it was, and if the patch was
    issued the run ends in [SystemExit(1)] right after a message; with
    code 204 and the patch issued, the run returns and the Zoom cells of
    all time slots are filled in, unless the meeting created has no
    [join_url], which is a [KeyError] before any cell is written. *)
Definition patched_outcome (api : providers) (self : Session) (sh : sheet)
    (x : result unit * sheet * list effect) : Prop :=
  match x with
  | (r, sh', tr) =>
      (zoom_livestream_code api ≠ 204 ->
         sh' = sh
         ∧ (patch_issued tr ->
            r = Raise (SystemExit 1) ∧ ∃ msg, last tr = Some (Print msg)))
      ∧ (zoom_livestream_code api = 204 -> patch_issued tr ->
         ∃ host id join_url,
           zoom_meeting api host = Some (id, join_url)
           ∧ match join_url with
             | Some url =>
                 r = Ok tt
                 ∧ sh' = zoom_cells url (pretty id) (drawn_password api)
                           (timeslots self) sh
             | None => r = Raise KeyError ∧ sh' = sh
             end)
  end.

(** The rows [Day.get_sessions] does not skip: the event cell is filled
    in and, unless breaks are included, is not BREAK. *)
Definition row_kept (sh : sheet) (include_breaks : bool) (r : nat) : bool :=
  match sh !! (r, "Event") with
  | None => false
  | Some ev => include_breaks || negb (bool_decide (ev = "BREAK"))
  end.

Definition kept_rows (d : Day) (sh : sheet) (include_breaks : bool) : list nat :=
  filter (fun r => row_kept sh include_breaks r = true) (session_rows d).

(** The key of a row: its event and session names around a dash. *)
Definition row_key (sh : sheet) (r : nat) : option string :=
  match sh !! (r, "Event"), sh !! (r, "Session") with
  | Some ev, Some sn => Some (ev +:+ "-" +:+ sn)
  | _, _ => None
  end.

(** [run] is a run of consecutive elements of [rows]. *)
Definition contiguous_run (run rows : list nat) : Prop :=
  ∃ before after, rows = before ++ run ++ after.

(** The rows have the same event name and the same session name. *)
Definition same_names (sh : sheet) (rows : list nat) : Prop :=
  ∀ r r', r ∈ rows -> r' ∈ rows ->
    sh !! (r, "Event") = sh !! (r', "Event")
    ∧ sh !! (r, "Session") = sh !! (r', "Session").

(** A row is in exactly one of the sessions. *)
Definition in_one_session (sessions : gmap string Session) (r : nat) : Prop :=
  ∃ key s,
    sessions !! key = Some s ∧ r ∈ timeslots s
    ∧ ∀ key' s', sessions !! key' = Some s' -> r ∈ timeslots s' -> key' = key.

(** Sessions as runs of contiguous rows: every session is a run of
    consecutive kept rows with the same names, in increasing order, and
    every kept row is in exactly one session. *)
Definition contiguous_sessions (d : Day) (sh : sheet) (include_breaks : bool)
    (sessions : gmap string Session) : Prop :=
  (∀ key s, sessions !! key = Some s ->
     contiguous_run (timeslots s) (kept_rows d sh include_breaks)
     ∧ same_names sh (timeslots s)
     ∧ StronglySorted lt (timeslots s))
  ∧ (∀ r, r ∈ kept_rows d sh include_breaks -> in_one_session sessions r).

(** Sessions as the rows of one key: every session holds all kept rows
    whose key is the session's, in increasing order, and every kept row is
    in exactly one session. *)
Definition keyed_sessions (d : Day) (sh : sheet) (include_breaks : bool)
    (sessions : gmap string Session) : Prop :=
  (∀ key s, sessions !! key = Some s ->
     timeslots s
     = filter (fun r => row_key sh r = Some key) (kept_rows d sh include_breaks)
     ∧ timeslots s ≠ []
     ∧ StronglySorted lt (timeslots s))
  ∧ (∀ r, r ∈ kept_rows d sh include_breaks -> in_one_session sessions r).

Module Interleaved.

(** A day on which a session of event A resumes after one of event B. *)
Definition the_sheet : sheet :=
  list_to_map
    [ ((3%nat, "Event"), "A"); ((3%nat, "Session"), "x");
      ((4%nat, "Event"), "B"); ((4%nat, "Session"), "y");
      ((5%nat, "Event"), "A"); ((5%nat, "Session"), "x") ].

Definition the_day : Day := mk_day 10 26 5 [].

End Interleaved.

(** What the loop of [get_sessions] has built once the rows [done] are
    behind it: under each key, the kept rows of that key. *)
Definition grouped (sh : sheet) (include_breaks : bool)
    (done : list nat) (sessions : gmap string Session) : Prop :=
  ∀ key,
    match sessions !! key with
    | Some s =>
        timeslots s
        = filter (fun r => row_key sh r = Some key)
                 (filter (fun r => row_kept sh include_breaks r = true) done)
        ∧ timeslots s ≠ []
    | None =>
        filter (fun r => row_key sh r = Some key)
               (filter (fun r => row_kept sh include_breaks r = true) done) = []
    end.

Module Collision.

(** Two rows whose names differ but whose keys are the same string. *)
Definition the_sheet : sheet :=
  list_to_map
    [ ((3%nat, "Event"), "A-B"); ((3%nat, "Session"), "C");
      ((4%nat, "Event"), "A"); ((4%nat, "Session"), "B-C") ].

Definition the_day : Day := mk_day 10 26 4 [].

End Collision.

Module Auth0Spec.
Import Auth0.

(** The text between double quotes. *)
Definition quoted (s : string) : string :=
  String "034" (s +:+ String "034" EmptyString).

(** A [registered.json] as [get_all] would save it, with one record, marked
    as emailed. *)
Definition registered_json : list string :=
  [ "{";
    "    " +:+ quoted "ann@vis.org" +:+ ": {";
    "        " +:+ quoted "name" +:+ ": " +:+ quoted "Ann" +:+ ",";
    "        " +:+ quoted "email" +:+ ": " +:+ quoted "ann@vis.org" +:+ ",";
    "        " +:+ quoted "password" +:+ ": " +:+ quoted "pw-ann" +:+ ",";
    "        " +:+ quoted "date" +:+ ": " +:+ quoted "2021-10-01 09:00:00" +:+ ",";
    "        " +:+ quoted "emailed" +:+ ": true";
    "    }";
    "}" ].

(** A run with the mail option set, in a directory that holds
    [registered.json] and the given files beside it, where Eventbrite
    lists the given attendees on one page. *)
Definition sample_world (attendees : list (string * string))
    (request_files : list (string * list string)) : world :=
  mk_world 1 (fun i => if decide (i = 1%nat) then Some attendees else None)
           (("registered.json", registered_json) :: request_files) true
           (fun _ => "drawn-pass") (fun p => "hash:" +:+ p) "2021-10-20 12:00:00"
           None "new_imports_1.json" "2021-10-20 07:00:01".

End Auth0Spec.

(* ===================================================================== *)
(** * core/schedule.py: Discord links, chat names, title cards *)
(* ===================================================================== *)

(** The longest run of ASCII digits a string starts with, and what follows:
    how a greedy [\d+] reads the string. *)
Fixpoint span_digits (s : string) : string * string :=
  match s with
  | EmptyString => (EmptyString, EmptyString)
  | String c s' =>
      if is_digit c then (String c (span_digits s').1, (span_digits s').2)
      else (EmptyString, s)
  end.

(** [match_discord_url(url)], with
    [re.match("https:\/\/discord.com\/channels\/(\d+)\/(\d+)", url)]: the
    dot of the pattern is not escaped and stands for any character but a
    newline.  The digits of the first group are followed by a slash or the
    match fails, since no shorter run of digits is followed by one. *)
Definition match_discord_url (url : option string) : result (string * string) :=
  match url with
  | None => Raise TypeError
  | Some u =>
      match strip_prefix "https://discord" u with
      | Some (String c rest) =>
          if Ascii.eqb c "010" then Raise AttributeError
          else
            match strip_prefix "com/channels/" rest with
            | Some rest =>
                match span_digits rest with
                | (String g gs, String sep rest') =>
                    if Ascii.eqb sep "/" then
                      match (span_digits rest').1 with
                      | String ch chs => Ok (String g gs, String ch chs)
                      | EmptyString => Raise AttributeError
                      end
                    else Raise AttributeError
                | _ => Raise AttributeError
                end
            | None => Raise AttributeError
            end
      | _ => Raise AttributeError
      end
  end.

(** [match_discord_channel_id(url)] *)
Definition match_discord_channel_id (url : option string) : result string :=
  rbind (match_discord_url url) (fun ids => Ok ids.2).

(** [match_discord_guild_id(url)] *)
Definition match_discord_guild_id (url : option string) : result string :=
  rbind (match_discord_url url) (fun ids => Ok ids.1).

(** [c.lower()] for a code point below 256: the ASCII capitals and the
    Latin-1 capitals (192 to 222 without the multiplication sign 215). *)
Definition lower_char (c : ascii) : ascii :=
  let n := nat_of_ascii c in
  if ((65 <=? n) && (n <=? 90) || (192 <=? n) && (n <=? 222) && negb (n =? 215))%nat
  then ascii_of_nat (n + 32)
  else c.

(** [s.lower()] *)
Fixpoint lower (s : string) : string :=
  match s with
  | EmptyString => EmptyString
  | String c s' => String (lower_char c) (lower s')
  end.

Definition is_alnum (c : ascii) : bool :=
  let n := nat_of_ascii c in
  ((48 <=? n) && (n <=? 57) || (65 <=? n) && (n <=? 90) || (97 <=? n) && (n <=? 122))%nat.

(** [re.sub("[^...]+", "", s)] for a character class: the characters of the
    class are kept, the others deleted. *)
Fixpoint keep_chars (keep : ascii -> bool) (s : string) : string :=
  match s with
  | EmptyString => EmptyString
  | String c s' => if keep c then String c (keep_chars keep s') else keep_chars keep s'
  end.

(** [re.sub("\-+", "-", s)]: every run of dashes becomes one dash. *)
Fixpoint squeeze_dashes (s : string) : string :=
  match s with
  | EmptyString => EmptyString
  | String c s' =>
      if Ascii.eqb c "-" then
        match squeeze_dashes s' with
        | String d t => if Ascii.eqb d "-" then String d t else String c (String d t)
        | EmptyString => String c EmptyString
        end
      else String c (squeeze_dashes s')
  end.

(** The class [[0-9A-Za-z\- ]] of [chat_category_name]. *)
Definition category_char (c : ascii) : bool :=
  is_alnum c || Ascii.eqb c "-" || Ascii.eqb c " ".

(** The class [[0-9A-Za-z\-]] of [chat_channel_name]. *)
Definition channel_char (c : ascii) : bool :=
  is_alnum c || Ascii.eqb c "-".

(** [s[a:b]] for literal [0 <= a <= b] *)
Definition slice (a b : nat) (s : string) : string := String.substring a (b - a) s.

Section SessionNames.

Variable d : Day.
Variable self : Session.

(** [Session.chat_category_name()] *)
Definition chat_category_name : string :=
  let name := squeeze_dashes (keep_chars category_char (lower (event self))) in
  if 100 <? len name then Auth0.strip (slice0 99 name) else name.

(** [Session.chat_channel_name()] *)
Definition chat_channel_name (sh : sheet) : result string :=
  rbind (timeslot_value self 0 "Event Type" sh) (fun event_type =>
  rbind (if decide (event_type = Some "Tutorial") then Ok true
         else
           rbind (timeslot_value self 0 "Event" sh) (fun ev =>
           rbind (timeslot_value self 0 "Session" sh) (fun sn =>
           Ok (bool_decide (ev = sn))))) (fun general =>
  if general : bool then Ok "general"
  else
    let name :=
      squeeze_dashes (keep_chars channel_char (replace1 " " "-" (lower (name self)))) in
    Ok (if 100 <? len name then slice0 99 name else name))).

(** [Session.title_card_title()] *)
Definition title_card_title (sh : sheet) : result string :=
  rbind (session_time d self sh) (fun session_time =>
  let pretty_session_time := format_time_slot session_time.1 session_time.2 in
  let pretty_session_time :=
    slice 0 2 pretty_session_time +:+ ":" +:+ slice 2 4 pretty_session_time
    +:+ "-" +:+ slice 5 7 pretty_session_time +:+ ":" +:+ slice 7 9 pretty_session_time in
  Ok (event_session_title self +:+ ": " +:+ pretty_session_time)).

(** The method [Session.make_youtube_title()] *)
Definition session_youtube_title : string :=
  make_youtube_title (CONFERENCE_NAME +:+ ": " +:+ event_session_title self).

(** [Session.has_discord_channel()] *)
Definition has_discord_channel (sh : sheet) : result bool :=
  rbind (timeslot_value self 0 "Discord Link" sh) (fun link =>
  Ok (bool_decide (link ≠ None))).

(** [Session.discord_ids()] *)
Definition discord_ids (sh : sheet) : result (string * string) :=
  rbind (timeslot_value self 0 "Discord Link" sh) match_discord_url.

(** [Session.discord_channel_id()] *)
Definition discord_channel_id (sh : sheet) : result string :=
  rbind (timeslot_value self 0 "Discord Link" sh) match_discord_channel_id.

(** [Session.discord_guild_id()] *)
Definition discord_guild_id (sh : sheet) : result string :=
  rbind (timeslot_value self 0 "Discord Link" sh) match_discord_guild_id.

End SessionNames.

(** The inner loop of [Database.populate_stream_key_ids] for one computer,
    over the (id, stream name) pairs of the live streams listed. *)
Definition populate_computer (streams : list (string * string)) (c : computer)
  : computer :=
  foldl (fun c s =>
           if decide (c_stream_key c = Some s.2)
           then mk_computer (c_id c) (c_stream_key c) (Some s.1)
           else c)
        c streams.

(** [Database.populate_stream_key_ids()], on the table of computers. *)
Definition populate_stream_key_ids (streams : list (string * string))
    (computers : list computer) : list computer :=
  populate_computer streams <$> computers.

(* ===================================================================== *)
(** * Vocabulary of the further properties *)
(* ===================================================================== *)

(** Every character of the string is in the class. *)
Fixpoint all_chars (P : ascii -> bool) (s : string) : bool :=
  match s with
  | EmptyString => true
  | String c s' => P c && all_chars P s'
  end.

(** The string does not start with a character of the class. *)
Definition not_starting_with (P : ascii -> bool) (s : string) : bool :=
  match s with
  | EmptyString => true
  | String c _ => negb (P c)
  end.

(** No two dashes in a row. *)
Fixpoint no_double_dash (s : string) : bool :=
  match s with
  | String a ((String b _) as s') =>
      negb (Ascii.eqb a "-" && Ascii.eqb b "-") && no_double_dash s'
  | _ => true
  end.

(** Digits, small ASCII letters and the dash: what Discord takes in a
    channel name. *)
Definition channel_name_char (c : ascii) : bool :=
  let n := nat_of_ascii c in
  ((48 <=? n) && (n <=? 57) || (97 <=? n) && (n <=? 122))%nat || Ascii.eqb c "-".

(** The same with the space, for category names. *)
Definition category_name_char (c : ascii) : bool :=
  channel_name_char c || Ascii.eqb c " ".

Definition is_upper (c : ascii) : bool :=
  let n := nat_of_ascii c in ((65 <=? n) && (n <=? 90))%nat.

Definition is_newline (c : ascii) : bool := Ascii.eqb c "010".
(* ===================================================================== *)
(** * Properties: strings *)
(* ===================================================================== *)

Section StringFacts.

Lemma length_replace1 a b s : String.length (replace1 a b s) = String.length s.
Proof. induction s as [|c s IH]; simpl; [done | by rewrite IH]. Qed.

Lemma has_char_replace1_same a b s :
  a ≠ b -> has_char a (replace1 a b s) = false.
Proof.
  intros Hab. induction s as [|c s IH]; simpl; [done |].
  rewrite IH, orb_false_r.
  destruct (Ascii.eqb_spec c a) as [->|Hc].
  - by apply Ascii.eqb_neq.
  - by apply Ascii.eqb_neq.
Qed.

Lemma has_char_replace1_other a b c s :
  c ≠ b -> has_char c s = false -> has_char c (replace1 a b s) = false.
Proof.
  intros Hcb. induction s as [|x s IH]; simpl; [done |].
  intros [Hx Hs]%orb_false_iff. rewrite (IH Hs), orb_false_r.
  destruct (Ascii.eqb x a); [| done].
  apply Ascii.eqb_neq. congruence.
Qed.

Lemma length_slice0 n s : (String.length (slice0 n s) <= n)%nat.
Proof.
  unfold slice0. revert s. induction n as [|n IH]; intros [|c s]; simpl; try lia.
  specialize (IH s). lia.
Qed.

Lemma has_char_slice0 c n s :
  has_char c s = false -> has_char c (slice0 n s) = false.
Proof.
  unfold slice0. revert s. induction n as [|n IH]; intros [|x s]; simpl; try done.
  intros [Hx Hs]%orb_false_iff. by rewrite Hx, (IH s Hs).
Qed.

End StringFacts.

Lemma replace_angles s : replace1 ">" " " (replace1 "<" " " s) = blank_angles s.
Proof.
  induction s as [|c s IH]; simpl; [done |]. rewrite IH. f_equal.
  unfold blank_angle.
  destruct (Ascii.eqb_spec c "<") as [->|H1]; [done |].
  destruct (Ascii.eqb_spec c ">") as [->|H2]; [done |].
  case_decide as H; [destruct H; congruence | done].
Qed.

Lemma length_blank_angles s : String.length (blank_angles s) = String.length s.
Proof. rewrite <- replace_angles. by rewrite !length_replace1. Qed.

Lemma blank_angles_clean s :
  has_char "<" (blank_angles s) = false ∧ has_char ">" (blank_angles s) = false.
Proof.
  rewrite <- replace_angles. split.
  - apply has_char_replace1_other; [done |]. by apply has_char_replace1_same.
  - by apply has_char_replace1_same.
Qed.

(** What both functions do, for a limit [n] and a cut at [k <= n]. *)
Lemma truncated_text_rules (n : Z) (k : nat) (s : string) :
  Z.of_nat k <= n ->
  let out := if n <? len (blank_angles s) then slice0 k (blank_angles s)
             else blank_angles s in
  len out <= n ∧ has_char "<" out = false ∧ has_char ">" out = false
  ∧ (len s <= n -> out = blank_angles s).
Proof.
  intros Hk. simpl. destruct (blank_angles_clean s) as [Hlt Hgt].
  destruct (Z.ltb_spec n (len (blank_angles s))) as [Hlong|Hshort].
  - repeat split.
    + unfold len. pose proof (length_slice0 k (blank_angles s)). lia.
    + by apply has_char_slice0.
    + by apply has_char_slice0.
    + unfold len in *. rewrite length_blank_angles in Hlong. lia.
  - done.
Qed.

(** C9. For every input, [make_youtube_title] returns at most 100
    characters and [make_youtube_description] at most 5000, neither
    containing an angle bracket; an input that is already within the limit
    comes back with its angle brackets turned into spaces and nothing else
    changed. *)
Theorem youtube_text_rules (s : string) :
  (len (make_youtube_title s) <= 100
   ∧ has_char "<" (make_youtube_title s) = false
   ∧ has_char ">" (make_youtube_title s) = false
   ∧ (len s <= 100 -> make_youtube_title s = blank_angles s))
  ∧ (len (make_youtube_description s) <= 5000
     ∧ has_char "<" (make_youtube_description s) = false
     ∧ has_char ">" (make_youtube_description s) = false
     ∧ (len s <= 5000 -> make_youtube_description s = blank_angles s)).
Proof.
  unfold make_youtube_title, make_youtube_description.
  rewrite replace_angles. split.
  - by apply (truncated_text_rules 100 99).
  - by apply (truncated_text_rules 5000 4999).
Qed.

Lemma youtube_text_rules_witness :
  make_youtube_title "a<b>" = "a b " ∧ make_youtube_description "<i>x</i>" = " i x /i ".
Proof.
  destruct (youtube_text_rules "a<b>") as [(_ & _ & _ & Ht) _].
  destruct (youtube_text_rules "<i>x</i>") as [_ (_ & _ & _ & Hd)].
  split.
  - rewrite Ht; [reflexivity | vm_compute; discriminate].
  - rewrite Hd; [reflexivity | vm_compute; discriminate].
Defined.

(* ===================================================================== *)
(** * Properties: time slots *)
(* ===================================================================== *)

Section Digits.

Lemma digit_val_range c : is_digit c = true -> 0 <= digit_val c <= 9.
Proof.
  unfold is_digit, digit_val.
  intros [H1 H2]%andb_true_iff.
  apply Nat.leb_le in H1, H2. lia.
Qed.

Lemma digit_char_val c : is_digit c = true -> digit_char (digit_val c) = c.
Proof.
  unfold is_digit, digit_char, digit_val.
  intros [H1 _]%andb_true_iff. apply Nat.leb_le in H1.
  replace (Z.to_nat (Z.of_nat (nat_of_ascii c) - 48 + 48)) with (nat_of_ascii c) by lia.
  apply ascii_nat_embedding.
Qed.

Lemma two_digits_val a b :
  is_digit a = true -> is_digit b = true ->
  two_digits (10 * digit_val a + digit_val b) = String a (String b EmptyString).
Proof.
  intros Ha Hb.
  pose proof (digit_val_range a Ha). pose proof (digit_val_range b Hb).
  unfold two_digits.
  replace ((10 * digit_val a + digit_val b) / 10) with (digit_val a)
    by (apply (Z.div_unique _ 10 _ (digit_val b)); lia).
  replace ((10 * digit_val a + digit_val b) mod 10) with (digit_val b)
    by (apply (Z.mod_unique _ 10 (digit_val a)); lia).
  by rewrite !digit_char_val.
Qed.

End Digits.

Lemma new_datetime_ok m dd hh mm :
  valid_date m dd -> 0 <= hh < 24 -> 0 <= mm < 60 ->
  new_datetime CONFERENCE_YEAR m dd hh mm conf_tz
  = Ok (mk_datetime CONFERENCE_YEAR m dd hh mm conf_tz).
Proof.
  intros [Hm Hd] Hh Hmm. unfold new_datetime.
  replace (1 <=? m) with true by (symmetry; apply Z.leb_le; lia).
  replace (m <=? 12) with true by (symmetry; apply Z.leb_le; lia).
  replace (1 <=? dd) with true by (symmetry; apply Z.leb_le; lia).
  replace (dd <=? days_in_month CONFERENCE_YEAR m) with true
    by (symmetry; apply Z.leb_le; lia).
  replace (0 <=? hh) with true by (symmetry; apply Z.leb_le; lia).
  replace (hh <=? 23) with true by (symmetry; apply Z.leb_le; lia).
  replace (0 <=? mm) with true by (symmetry; apply Z.leb_le; lia).
  replace (mm <=? 59) with true by (symmetry; apply Z.leb_le; lia).
  reflexivity.
Qed.

Lemma is_clock_spec a b c dd :
  is_clock a b c dd = true ->
  is_digit a = true ∧ is_digit b = true ∧ is_digit c = true ∧ is_digit dd = true
  ∧ 0 <= 10 * digit_val a + digit_val b < 24
  ∧ 0 <= 10 * digit_val c + digit_val dd < 60.
Proof.
  unfold is_clock. rewrite !andb_true_iff.
  intros [[[[[Ha Hb] Hc] Hd] Hh%Z.ltb_lt] Hm%Z.ltb_lt].
  pose proof (digit_val_range a Ha). pose proof (digit_val_range b Hb).
  pose proof (digit_val_range c Hc). pose proof (digit_val_range dd Hd).
  repeat split; try done; lia.
Qed.

(** What [parse_time_slot] returns on a well-formed slot, character by
    character. *)
Lemma parse_time_slot_chars a b c dd e f g h m day rest :
  is_clock a b c dd = true -> is_clock e f g h = true -> valid_date m day ->
  parse_time_slot
    (Some (String a (String b (String c (String dd (String "-"
       (String e (String f (String g (String h rest)))))))))) m day
  = Ok (mk_datetime CONFERENCE_YEAR m day
          (10 * digit_val a + digit_val b) (10 * digit_val c + digit_val dd) conf_tz,
        mk_datetime CONFERENCE_YEAR m day
          (10 * digit_val e + digit_val f) (10 * digit_val g + digit_val h) conf_tz).
Proof.
  intros (Ha & Hb & Hc & Hd & Hh1 & Hm1)%is_clock_spec
         (He & Hf & Hg & Hh & Hh2 & Hm2)%is_clock_spec Hdate.
  unfold parse_time_slot, match_timeslot.
  rewrite Ha, Hb, Hc, Hd, He, Hf, Hg, Hh. simpl andb. cbv iota.
  rewrite !new_datetime_ok by done. reflexivity.
Qed.

Lemma is_hhmm_hhmm_inv s :
  is_hhmm_hhmm s = true ->
  ∃ a b c dd e f g h,
    s = String a (String b (String c (String dd (String "-"
          (String e (String f (String g (String h EmptyString))))))))
    ∧ is_clock a b c dd = true ∧ is_clock e f g h = true.
Proof.
  destruct s as [|a [|b [|c [|dd [|dash [|e [|f [|g [|h [|? ?]]]]]]]]]]; try done.
  simpl. rewrite !andb_true_iff. intros [[H1 Hdash%bool_decide_eq_true] H2].
  subst dash. by exists a, b, c, dd, e, f, g, h.
Qed.

(** C8. Parsing a string of the form HHMM-HHMM, on any valid month and
    day, succeeds, and formatting the pair of times it returns gives the
    string back. *)
Theorem time_slot_roundtrip (s : string) (m dd : Z) :
  is_hhmm_hhmm s = true -> valid_date m dd ->
  ∃ start end_,
    parse_time_slot (Some s) m dd = Ok (start, end_)
    ∧ format_time_slot start end_ = s.
Proof.
  intros (a & b & c & d & e & f & g & h & -> & H1 & H2)%is_hhmm_hhmm_inv Hdate.
  eexists _, _. split.
  - by apply parse_time_slot_chars.
  - apply is_clock_spec in H1 as (Ha & Hb & Hc & Hd & _).
    apply is_clock_spec in H2 as (He & Hf & Hg & Hh & _).
    unfold format_time_slot. simpl.
    by rewrite !two_digits_val.
Qed.

Lemma time_slot_roundtrip_witness :
  ∃ start end_,
    parse_time_slot (Some "0930-1045") 10 26 = Ok (start, end_)
    ∧ format_time_slot start end_ = "0930-1045".
Proof.
  apply (time_slot_roundtrip "0930-1045" 10 26).
  - reflexivity.
  - unfold valid_date. vm_compute. intuition discriminate.
Defined.

Section Index.

Context {A : Type}.

Lemma index_lookup (l : list A) (i : nat) (x : A) :
  l !! i = Some x -> index l (Z.of_nat i) = Ok x.
Proof.
  intros Hx. pose proof (lookup_lt_Some _ _ _ Hx) as Hlt.
  unfold index.
  replace (Z.of_nat i <? 0) with false by (symmetry; apply Z.ltb_ge; lia).
  replace (0 <=? Z.of_nat i) with true by (symmetry; apply Z.leb_le; lia).
  replace (Z.of_nat i <? Z.of_nat (length l)) with true
    by (symmetry; apply Z.ltb_lt; lia).
  simpl. by rewrite Nat2Z.id, Hx.
Qed.

Lemma index_head (l : list A) (x : A) : head l = Some x -> index l 0 = Ok x.
Proof. intros Hx. apply (index_lookup l 0). by rewrite <- head_lookup. Qed.

Lemma index_last (l : list A) (x : A) :
  last l = Some x -> index l (Z.of_nat (length l) - 1) = Ok x.
Proof.
  intros Hx. rewrite last_lookup in Hx.
  pose proof (lookup_lt_Some _ _ _ Hx) as Hlt.
  replace (Z.of_nat (length l) - 1) with (Z.of_nat (Nat.pred (length l))) by lia.
  by apply index_lookup.
Qed.

Lemma index_nil (i : Z) : index (@nil A) i = Raise IndexError.
Proof.
  unfold index. simpl. by destruct (_ && _).
Qed.

End Index.

(** C6. For a session with at least one time slot whose first and last
    slots hold HHMM-HHMM strings, [session_time()] returns a pair whose
    start reads as the first half of the first slot's string and whose end
    reads as the second half of the last slot's string, both on the day's
    month and day in the conference year and time zone. *)
Theorem session_time_first_last (d : Day) (self : Session) (sh : sheet)
    (r0 rl : nat) (s0 sl : string) :
  head (timeslots self) = Some r0 ->
  last (timeslots self) = Some rl ->
  sh !! (r0, "Time Slot") = Some s0 ->
  sh !! (rl, "Time Slot") = Some sl ->
  is_hhmm_hhmm s0 = true -> is_hhmm_hhmm sl = true ->
  valid_date (month d) (day d) ->
  ∃ start end_,
    session_time d self sh = Ok (start, end_)
    ∧ clock start = String.substring 0 4 s0
    ∧ clock end_ = String.substring 5 4 sl
    ∧ on_conference_day d start ∧ on_conference_day d end_.
Proof.
  intros Hhead Hlast Hs0 Hsl
    (a & b & c & dd & e & f & g & h & -> & H1 & H2)%is_hhmm_hhmm_inv
    (a' & b' & c' & dd' & e' & f' & g' & h' & -> & H1' & H2')%is_hhmm_hhmm_inv
    Hdate.
  unfold session_time, timeslot_value, num_timeslots.
  rewrite (index_head _ _ Hhead), (index_last _ _ Hlast). simpl rbind.
  rewrite Hs0, Hsl.
  rewrite !parse_time_slot_chars by done. simpl rbind.
  eexists _, _. split; [reflexivity |].
  apply is_clock_spec in H1 as (Ha & Hb & Hc & Hd & Hh1 & Hm1).
  apply is_clock_spec in H2' as (He & Hf & Hg & Hh & Hh2 & Hm2).
  unfold clock, on_conference_day. simpl.
  rewrite !two_digits_val by done.
  repeat split; try done; lia.
Qed.

Lemma session_time_first_last_witness :
  ∃ start end_,
    session_time Sample.tuesday Sample.opening Sample.opening_sheet = Ok (start, end_)
    ∧ clock start = "0900" ∧ clock end_ = "1015"
    ∧ on_conference_day Sample.tuesday start
    ∧ on_conference_day Sample.tuesday end_.
Proof.
  apply (session_time_first_last Sample.tuesday Sample.opening Sample.opening_sheet
           3%nat 4%nat "0900-0930" "0930-1015").
  - reflexivity.
  - reflexivity.
  - vm_compute. reflexivity.
  - vm_compute. reflexivity.
  - reflexivity.
  - reflexivity.
  - unfold valid_date. vm_compute. intuition discriminate.
Defined.

(* ===================================================================== *)
(** * Properties: the streaming life cycle *)
(* ===================================================================== *)

(** Messages stay as they are written while a run is simplified. *)
#[local] Arguments String.append : simpl never.
#[local] Arguments zoom_status_url : simpl never.
#[local] Arguments str_opt : simpl never.

Section Run.
Context {A B : Type}.

Lemma run_bind (m : M A) (k : A -> M B) sh a sh1 t1 :
  m sh = (Ok a, sh1, t1) -> (m ≫= k) sh = prepend t1 (k a sh1).
Proof.
  intros Hm. unfold mbind, M_bind, prepend. rewrite Hm.
  by destruct (k a sh1) as [[r sh2] t2].
Qed.

Lemma run_bind_pure (m : M A) (k : A -> M B) sh a :
  m sh = (Ok a, sh, []) -> (m ≫= k) sh = k a sh.
Proof.
  intros Hm. rewrite (run_bind _ _ _ _ _ _ Hm). unfold prepend.
  by destruct (k a sh) as [[r sh2] t2].
Qed.

Lemma run_bind_raise (m : M A) (k : A -> M B) sh e sh1 t1 :
  m sh = (Raise e, sh1, t1) -> (m ≫= k) sh = (Raise e, sh1, t1).
Proof. intros Hm. unfold mbind, M_bind. by rewrite Hm. Qed.

End Run.

Lemma prepend_pair {B} t (r : result B) sh t' :
  prepend t (r, sh, t') = (r, sh, t ++ t').
Proof. done. Qed.

Lemma run_bind_assoc {A B C} (m : M A) (k1 : A -> M B) (k2 : B -> M C) sh :
  ((m ≫= k1) ≫= k2) sh = (m ≫= (fun a => k1 a ≫= k2)) sh.
Proof.
  unfold mbind, M_bind. destruct (m sh) as [[[a|e] sh1] t1]; [| done].
  destruct (k1 a sh1) as [[[b|e] sh2] t2]; [| done].
  destruct (k2 b sh2) as [[r sh3] t3]. by rewrite app_assoc.
Qed.

Lemma run_bind_emit {B} (e : effect) (k : unit -> M B) sh :
  (emit e ≫= k) sh = prepend [e] (k tt sh).
Proof. by apply run_bind. Qed.

Lemma run_bind_print {B} (msg : string) (k : unit -> M B) sh :
  (print msg ≫= k) sh = prepend [Print msg] (k tt sh).
Proof. by apply run_bind. Qed.


Lemma timeslot_value_head self r0 item sh :
  head (timeslots self) = Some r0 ->
  timeslot_value self 0 item sh = Ok (sh !! (r0, item)).
Proof. intros H. unfold timeslot_value. by rewrite (index_head _ _ H). Qed.

Lemma try_read_timeslot_head self r0 item sh :
  head (timeslots self) = Some r0 ->
  try_read (timeslot_value self 0 item) sh = (Ok (sh !! (r0, item)), sh, []).
Proof. intros H. unfold try_read. by rewrite (timeslot_value_head _ _ _ _ H). Qed.

Lemma youtube_broadcast_id_run self sh r0 id :
  head (timeslots self) = Some r0 ->
  match_youtube_id (sh !! (r0, "Youtube Broadcast")) = Ok id ->
  youtube_broadcast_id self sh = (Ok id, sh, []).
Proof.
  intros Hhead Hid. unfold youtube_broadcast_id.
  rewrite (run_bind_pure _ _ _ _ (try_read_timeslot_head _ _ _ _ Hhead)).
  unfold lift. by rewrite Hid.
Qed.

Lemma get_broadcast_status_inv api self sh st r0 :
  head (timeslots self) = Some r0 ->
  (get_broadcast_status api self sh).1.1 = Ok st ->
  ∃ id, match_youtube_id (sh !! (r0, "Youtube Broadcast")) = Ok id
        ∧ index (yt_broadcasts api id) 0 = Ok st
        ∧ get_broadcast_status api self sh = (Ok st, sh, [YtBroadcastList id]).
Proof.
  intros Hhead. unfold get_broadcast_status, youtube_broadcast_id.
  unfold mbind, M_bind, try_read, lift, emit.
  rewrite (timeslot_value_head _ _ _ _ Hhead).
  destruct (match_youtube_id _) as [id|e]; simpl; [| intros [=]].
  destruct (index _ 0) as [st'|e] eqn:Hst; simpl; [| intros [=]].
  intros [= ->]. by exists id.
Qed.

Lemma get_stream_status_inv d api self sh ci r0 ss health :
  head (timeslots self) = Some r0 ->
  get_computer (computers d) (sh !! (r0, "Computer")) = Ok ci ->
  (get_stream_status d api self sh).1.1 = Ok (ss, health) ->
  get_stream_status d api self sh
  = (Ok (ss, health), sh, [YtStreamList (c_stream_key_id ci)]).
Proof.
  intros Hhead Hci. unfold get_stream_status.
  rewrite (run_bind_pure _ _ _ _ (try_read_timeslot_head _ _ _ _ Hhead)).
  unfold mbind, M_bind, lift, emit. rewrite Hci.
  destruct (index _ 0) as [x|e]; simpl; [| intros [=]].
  by intros [= ->].
Qed.

Ltac run_step :=
  first
    [ rewrite run_bind_assoc
    | rewrite run_bind_emit
    | rewrite run_bind_print
    | erewrite run_bind_pure
        by first [ eassumption
                 | apply try_read_timeslot_head; eassumption
                 | reflexivity ]
    | erewrite run_bind by eassumption ].

(** C2. For a session that is neither Zoom-only nor Discord-only, has
    no manual-stream note and is assigned a computer of the table: when
    [get_broadcast_status] returns a state other than ready or created,
    [start_streaming] prints a message and returns, and the status query is
    the only call it has made (no bind, no signal to Zoom, no transition);
    when the state is ready or created, it binds the stream key, tells Zoom
    to start, sleeps ten seconds, polls the stream (and sleeps ten more
    seconds if it is not active) and transitions the broadcast to live. *)
Theorem start_streaming_states (d : Day) (api : providers) (self : Session)
    (sh : sheet) (r0 : nat) (ci : computer) (st : string) :
  head (timeslots self) = Some r0 ->
  sh !! (r0, "Time Slot Type") ≠ Some "Zoom Only" ->
  sh !! (r0, "Time Slot Type") ≠ Some "Discord Only" ->
  "Manual Stream" ∉ special_notes self sh ->
  get_computer (computers d) (sh !! (r0, "Computer")) = Ok ci ->
  (get_broadcast_status api self sh).1.1 = Ok st ->
  (st ≠ "ready" ∧ st ≠ "created" ->
     ∃ id tr msg,
       start_streaming d api self sh = (Ok tt, sh, tr)
       ∧ calls tr = [YtBroadcastList id]
       ∧ last tr = Some (Print msg))
  ∧ (st = "ready" ∨ st = "created" ->
     ∀ ss health,
       (get_stream_status d api self sh).1.1 = Ok (ss, health) ->
       ∃ id tr,
         start_streaming d api self sh = (Ok tt, sh, tr)
         ∧ calls tr =
             [YtBroadcastList id; YtBind id (Some (c_stream_key_id ci));
              ZoomLivestreamStatus
                (zoom_status_url (sh !! (r0, "Zoom Meeting ID"))) "start";
              Sleep 10; YtStreamList (c_stream_key_id ci)]
             ++ (if decide (ss = "active") then [] else [Sleep 10])
             ++ [YtTransition "live" id]).
Proof.
  intros Hhead Hz Hd Hman Hci Hst.
  destruct (get_broadcast_status_inv _ _ _ _ _ Hhead Hst)
    as (id & Hid & Hidx & Hst').
  pose proof (youtube_broadcast_id_run _ _ _ _ Hhead Hid) as Hrun.
  assert (Hlift : lift (get_computer (computers d) (sh !! (r0, "Computer"))) sh
                  = (Ok ci, sh, [])) by (unfold lift; by rewrite Hci).
  split.
  - intros Hnot. unfold start_streaming.
    run_step. rewrite decide_False by tauto.
    run_step. run_step. rewrite decide_False by done.
    run_step. run_step. rewrite decide_True by done.
    run_step. unfold print, emit, prepend. simpl.
    by eexists id, _, _.
  - intros Hlive ss health Hss.
    pose proof (get_stream_status_inv _ _ _ _ _ _ _ _ Hhead Hci Hss) as Hss'.
    unfold start_streaming.
    run_step. rewrite decide_False by tauto.
    run_step. run_step. rewrite decide_False by done.
    run_step. run_step.
    rewrite decide_False by (destruct Hlive; subst; intros [? ?]; done).
    repeat run_step.
    exists id.
    destruct (decide (ss ≠ "active")) as [Hna|Hna];
      destruct (decide (health ≠ "good"));
      repeat run_step; unfold emit, prepend; simpl;
      (eexists; split; [reflexivity |]).
    all: unfold calls; simpl.
    all: try rewrite (decide_False (P := ss = "active")) by done.
    all: try rewrite (decide_True (P := ss = "active")) by (by apply dec_stable).
    all: reflexivity.
Qed.

Lemma start_streaming_states_witness :
  (∃ id tr msg,
     start_streaming Sample.tuesday (Sample.youtube "live" "active" "good" 204)
       Sample.opening Sample.opening_sheet = (Ok tt, Sample.opening_sheet, tr)
     ∧ calls tr = [YtBroadcastList id]
     ∧ last tr = Some (Print msg))
  ∧ (∃ id tr,
       start_streaming Sample.tuesday (Sample.youtube "ready" "inactive" "good" 204)
         Sample.opening Sample.opening_sheet = (Ok tt, Sample.opening_sheet, tr)
       ∧ calls tr =
           [YtBroadcastList id; YtBind id (Some (Some "stream-a"));
            ZoomLivestreamStatus
              "https://api.zoom.us/v2/meetings/987/livestream/status" "start";
            Sleep 10; YtStreamList (Some "stream-a"); Sleep 10;
            YtTransition "live" id]).
Proof.
  split.
  - refine (proj1 (start_streaming_states Sample.tuesday
              (Sample.youtube "live" "active" "good" 204) Sample.opening
              Sample.opening_sheet 3%nat
              (mk_computer (Some "A") (Some "key-a") (Some "stream-a")) "live"
              _ _ _ _ _ _) _).
    + reflexivity.
    + vm_compute. discriminate.
    + vm_compute. discriminate.
    + apply (bool_decide_unpack _). vm_compute. exact I.
    + vm_compute. reflexivity.
    + vm_compute. reflexivity.
    + split; discriminate.
  - refine (proj2 (start_streaming_states Sample.tuesday
              (Sample.youtube "ready" "inactive" "good" 204) Sample.opening
              Sample.opening_sheet 3%nat
              (mk_computer (Some "A") (Some "key-a") (Some "stream-a")) "ready"
              _ _ _ _ _ _) _ "inactive" "good" _).
    + reflexivity.
    + vm_compute. discriminate.
    + vm_compute. discriminate.
    + apply (bool_decide_unpack _). vm_compute. exact I.
    + vm_compute. reflexivity.
    + vm_compute. reflexivity.
    + by left.
    + vm_compute. reflexivity.
Defined.

(** C1. With the broadcast ready and the polled stream reported inactive
    and unhealthy, [start_streaming] still returns normally and its last
    call transitions the broadcast to live: the single wait that follows
    the poll is not followed by a second poll or a return. *)
Theorem start_streaming_inactive_stream_goes_live :
  let run := start_streaming Sample.tuesday
               (Sample.youtube "ready" "inactive" "bad" 204)
               Sample.opening Sample.opening_sheet in
  run.1.1 = Ok tt
  ∧ calls run.2 =
      [YtBroadcastList "abc123"; YtBind "abc123" (Some (Some "stream-a"));
       ZoomLivestreamStatus
         "https://api.zoom.us/v2/meetings/987/livestream/status" "start";
       Sleep 10; YtStreamList (Some "stream-a"); Sleep 10;
       YtTransition "live" "abc123"].
Proof. split; vm_compute; reflexivity. Qed.

(** C3. For a session that is neither Zoom-only nor Discord-only and has
    no manual-stream note: when the broadcast is complete,
    [stop_streaming] returns having made no call but the status query;
    when it is live, it transitions the broadcast to complete, unbinds the
    stream, makes the video embeddable and tells Zoom to stop, in that
    order; in any other state it prints a message and returns, again with
    no call but the status query. *)
Theorem stop_streaming_states (api : providers) (self : Session)
    (sh : sheet) (r0 : nat) (st : string) :
  head (timeslots self) = Some r0 ->
  sh !! (r0, "Time Slot Type") ≠ Some "Zoom Only" ->
  sh !! (r0, "Time Slot Type") ≠ Some "Discord Only" ->
  "Manual Stream" ∉ special_notes self sh ->
  (get_broadcast_status api self sh).1.1 = Ok st ->
  ∃ id tr,
    stop_streaming api self sh = (Ok tt, sh, tr)
    ∧ (st = "complete" -> calls tr = [YtBroadcastList id])
    ∧ (st = "live" ->
       calls tr =
         [YtBroadcastList id; YtTransition "complete" id; YtBind id None;
          YtVideoEmbeddable id;
          ZoomLivestreamStatus
            (zoom_status_url (sh !! (r0, "Zoom Meeting ID"))) "stop"])
    ∧ (st ≠ "complete" ∧ st ≠ "live" ->
       calls tr = [YtBroadcastList id] ∧ ∃ msg, last tr = Some (Print msg)).
Proof.
  intros Hhead Hz Hd Hman Hst.
  destruct (get_broadcast_status_inv _ _ _ _ _ Hhead Hst)
    as (id & Hid & Hidx & Hst').
  pose proof (youtube_broadcast_id_run _ _ _ _ Hhead Hid) as Hrun.
  exists id. unfold stop_streaming.
  run_step. rewrite decide_False by tauto.
  run_step. run_step. rewrite decide_False by done.
  run_step.
  destruct (decide (st = "complete")) as [->|Hc];
    [| destruct (decide (st ≠ "live")) as [Hl|Hl%dec_stable]].
  - run_step. unfold print, emit, prepend. simpl.
    eexists. split; [reflexivity |].
    split_and!; [done | done | by intros [? _]].
  - run_step. unfold print, emit, prepend. simpl.
    eexists. split; [reflexivity |].
    split_and!; [done | done | intros _; split; [done | eauto]].
  - subst st. repeat run_step. unfold get_zoom_meeting_id.
    repeat run_step. unfold emit, prepend. simpl.
    eexists. split; [reflexivity |].
    split_and!; [done | done | by intros [_ ?]].
Qed.

Lemma stop_streaming_states_witness :
  ∃ tr,
    stop_streaming (Sample.youtube "live" "active" "good" 204)
      Sample.opening Sample.opening_sheet = (Ok tt, Sample.opening_sheet, tr)
    ∧ calls tr =
        [YtBroadcastList "abc123"; YtTransition "complete" "abc123";
         YtBind "abc123" None; YtVideoEmbeddable "abc123";
         ZoomLivestreamStatus
           "https://api.zoom.us/v2/meetings/987/livestream/status" "stop"].
Proof.
  destruct (stop_streaming_states (Sample.youtube "live" "active" "good" 204)
              Sample.opening Sample.opening_sheet 3%nat "live")
    as (id & tr & Hrun & _ & Hlive & _).
  - reflexivity.
  - vm_compute. discriminate.
  - vm_compute. discriminate.
  - apply (bool_decide_unpack _). vm_compute. exact I.
  - vm_compute. reflexivity.
  - exists tr. split; [exact Hrun |].
    rewrite (Hlive eq_refl).
    assert (Hid : id = "abc123").
    { assert (Hc : calls tr = calls
        (stop_streaming (Sample.youtube "live" "active" "good" 204)
           Sample.opening Sample.opening_sheet).2) by (by rewrite Hrun).
      rewrite (Hlive eq_refl) in Hc. vm_compute in Hc. by injection Hc. }
    rewrite Hid. reflexivity.
Defined.

(* ===================================================================== *)
(** * Properties: scheduling the Zoom meeting *)
(* ===================================================================== *)

Section ZoomCells.

Variables (url id password : string).

Lemma zoom_cells_snoc rows r sh :
  zoom_cells url id password (rows ++ [r]) sh
  = <[(r, "Zoom Password") := password]>
      (<[(r, "Zoom Meeting ID") := id]>
         (<[(r, "Zoom URL") := url]> (zoom_cells url id password rows sh))).
Proof. unfold zoom_cells. by rewrite foldl_app. Qed.

Lemma zoom_cells_written rows sh row :
  row ∈ rows ->
  zoom_cells url id password rows sh !! (row, "Zoom URL") = Some url
  ∧ zoom_cells url id password rows sh !! (row, "Zoom Meeting ID") = Some id
  ∧ zoom_cells url id password rows sh !! (row, "Zoom Password") = Some password.
Proof.
  induction rows as [|r rows IH] using rev_ind; [by intros ?%elem_of_nil |].
  rewrite zoom_cells_snoc. intros [Hin| ->%list_elem_of_singleton]%elem_of_app.
  - destruct (IH Hin) as (H1 & H2 & H3).
    destruct (decide (r = row)) as [->|Hne].
    + by simplify_map_eq.
    + by rewrite !lookup_insert_ne by congruence.
  - by simplify_map_eq.
Qed.

Lemma zoom_cells_other rows sh row item :
  row ∉ rows
  ∨ (item ≠ "Zoom URL" ∧ item ≠ "Zoom Meeting ID" ∧ item ≠ "Zoom Password") ->
  zoom_cells url id password rows sh !! (row, item) = sh !! (row, item).
Proof.
  induction rows as [|r rows IH] using rev_ind; [done |].
  rewrite zoom_cells_snoc. intros H.
  assert (Hne : ∀ c, c = "Zoom URL" ∨ c = "Zoom Meeting ID" ∨ c = "Zoom Password" ->
                     (r, c) ≠ (row, item)).
  { intros c Hc [= -> <-]. destruct H as [H|(H1 & H2 & H3)].
    - apply H. apply elem_of_app. right. by apply list_elem_of_singleton.
    - by destruct Hc as [->|[->| ->]]. }
  rewrite !lookup_insert_ne by (apply Hne; tauto).
  apply IH. destruct H as [H|H]; [left | by right].
  intros ?. apply H. apply elem_of_app. by left.
Qed.

End ZoomCells.

(** The loop that fills the Zoom cells in, from time slot [k] on. *)
Lemma fill_zoom_cells self url id password (k n : nat) sh :
  (k + n <= length (timeslots self))%nat ->
  for_each (Z.of_nat <$> seq k n)
    (fun t =>
       join_url ← lift (Ok url);
       set_timeslot_value self t "Zoom URL" join_url;;
       set_timeslot_value self t "Zoom Meeting ID" id;;
       set_timeslot_value self t "Zoom Password" password) sh
  = (Ok tt, zoom_cells url id password (take n (drop k (timeslots self))) sh, []).
Proof.
  revert k sh. induction n as [|n IH]; intros k sh Hlen; [done |].
  destruct (lookup_lt_is_Some_2 (timeslots self) k) as [r Hr]; [lia |].
  assert (Hset : ∀ item v sh0,
    set_timeslot_value self (Z.of_nat k) item v sh0
    = (Ok tt, <[(r, item) := v]> sh0, [])).
  { intros item v sh0. unfold set_timeslot_value, mbind, M_bind, lift, write.
    by rewrite (index_lookup _ _ _ Hr). }
  simpl.
  rewrite run_bind_assoc. erewrite run_bind_pure by reflexivity.
  rewrite run_bind_assoc. erewrite run_bind by apply Hset.
  rewrite run_bind_assoc. erewrite run_bind by apply Hset.
  erewrite run_bind by apply Hset.
  rewrite IH by lia. unfold prepend. simpl.
  by rewrite (drop_S _ _ _ Hr).
Qed.

(** Without a [join_url] the loop stops in its first iteration. *)
Lemma fill_zoom_cells_no_url self id password sh :
  timeslots self ≠ [] ->
  for_each (range0 (length (timeslots self)))
    (fun t =>
       join_url ← lift (Raise KeyError);
       set_timeslot_value self t "Zoom URL" join_url;;
       set_timeslot_value self t "Zoom Meeting ID" id;;
       set_timeslot_value self t "Zoom Password" password) sh
  = (Raise KeyError, sh, []).
Proof. destruct (timeslots self) as [|r0 rest]; [done |]. by intros _. Qed.

Lemma setup_time_run self sh r0 :
  head (timeslots self) = Some r0 ->
  setup_time self sh
  = (Ok (if decide (sh !! (r0, "Time Slot Type") ≠ Some "Zoom Only") then 15 else 0),
     sh, []).
Proof.
  intros Hhead. unfold setup_time.
  by rewrite (run_bind_pure _ _ _ _ (try_read_timeslot_head _ _ _ _ Hhead)).
Qed.

Section Quiet.

Lemma quiet_ret {A} (a : A) : quiet (mret a).
Proof. by intros sh. Qed.

Lemma quiet_lift {A} (r : result A) : quiet (lift r).
Proof. by intros sh. Qed.

Lemma quiet_try_read {A} (f : sheet -> result A) : quiet (try_read f).
Proof. by intros sh. Qed.

Lemma quiet_print (msg : string) : quiet (print msg).
Proof. by intros sh. Qed.

Lemma quiet_emit (e : effect) : is_livestream_patch e = false -> quiet (emit e).
Proof. intros He sh. simpl. by rewrite He. Qed.

Lemma quiet_bind {A B} (m : M A) (k : A -> M B) :
  quiet m -> (∀ a, quiet (k a)) -> quiet (m ≫= k).
Proof.
  intros Hm Hk sh. specialize (Hm sh). unfold mbind, M_bind.
  destruct (m sh) as [[[a|e] sh1] t1]; simpl in *; [| done].
  destruct Hm as [-> Ht1]. specialize (Hk a sh).
  destruct (k a sh) as [[r sh2] t2]; simpl in *.
  destruct Hk as [-> Ht2]. split; [done |].
  by rewrite existsb_app, Ht1, Ht2.
Qed.

Lemma quiet_if {A} (b : bool) (m1 m2 : M A) :
  quiet m1 -> quiet m2 -> quiet (if b then m1 else m2).
Proof. by destruct b. Qed.

End Quiet.

Create HintDb quiet.
#[local] Hint Resolve quiet_ret quiet_lift quiet_try_read quiet_print
  quiet_emit quiet_bind quiet_if : quiet.

Section PatchedOutcome.

Variables (api : providers) (self : Session) (sh : sheet).

Lemma patched_outcome_raise e t :
  existsb is_livestream_patch t = false ->
  patched_outcome api self sh (Raise e, sh, t).
Proof.
  intros Ht. unfold patched_outcome, patch_issued. rewrite Ht.
  split; [split |]; done.
Qed.

Lemma patched_outcome_prepend t x :
  existsb is_livestream_patch t = false ->
  patched_outcome api self sh x ->
  patched_outcome api self sh (prepend t x).
Proof.
  intros Ht. destruct x as [[r sh'] tr]. unfold patched_outcome, patch_issued.
  simpl. rewrite existsb_app, Ht. simpl.
  intros [H1 H2]. split; [| done].
  intros Hcode. destruct (H1 Hcode) as [-> H3]. split; [done |].
  intros Hp. destruct (H3 Hp) as [-> [msg Hmsg]]. split; [done |].
  exists msg. destruct tr as [|e tr]; [done |].
  by rewrite last_app, Hmsg.
Qed.

(** A quiet first part passes the outcome of the rest through. *)
Lemma patched_outcome_bind {A} (m : M A) (k : A -> M unit) :
  quiet m ->
  (∀ a t, m sh = (Ok a, sh, t) -> patched_outcome api self sh (k a sh)) ->
  patched_outcome api self sh ((m ≫= k) sh).
Proof.
  intros Hm Hk. specialize (Hm sh).
  destruct (m sh) as [[[a|e] sh1] t1] eqn:Hrun; simpl in Hm;
    destruct Hm as [-> Ht1].
  - rewrite (run_bind _ _ _ _ _ _ Hrun).
    apply patched_outcome_prepend; [done |]. by apply (Hk a t1).
  - rewrite (run_bind_raise _ _ _ _ _ _ Hrun). by apply patched_outcome_raise.
Qed.

End PatchedOutcome.

Lemma schedule_zoom_outcome (d : Day) (api : providers) (self : Session) (sh : sheet) :
  patched_outcome api self sh (schedule_zoom d api self sh).
Proof.
  unfold schedule_zoom.
  apply patched_outcome_bind; [auto with quiet |]. intros computer t0 Hcomputer.
  assert (Hslots : timeslots self ≠ []).
  { intros Hnil. unfold try_read, timeslot_value in Hcomputer.
    rewrite Hnil, index_nil in Hcomputer. simplify_eq. }
  apply patched_outcome_bind; [auto with quiet |]. intros _ _ _.
  apply patched_outcome_bind.
  { apply quiet_if; auto 10 with quiet. }
  intros [host alternative_hosts] _ _.
  apply patched_outcome_bind; [auto with quiet |]. intros session_time _ _.
  apply patched_outcome_bind.
  { unfold setup_time. auto with quiet. }
  intros setup _ _.
  apply patched_outcome_bind; [auto with quiet |]. intros _ _ _.
  apply patched_outcome_bind.
  { unfold get_stream_key. auto 10 with quiet. }
  intros stream_key _ _.
  apply patched_outcome_bind; [auto with quiet |]. intros page_url _ _.
  apply patched_outcome_bind; [auto with quiet |]. intros [id join_url] t Hinfo.
  assert (Hmeeting : zoom_meeting api host = Some (id, join_url)).
  { unfold lift in Hinfo. destruct (zoom_meeting api host); by simplify_eq. }
  rewrite run_bind_emit.
  destruct (decide (zoom_livestream_code api ≠ 204)) as [Hcode|Hcode%dec_stable].
  - rewrite run_bind_print. unfold raise, lift. rewrite !prepend_pair.
    unfold patched_outcome.
    split; [| by intros ?]. intros _. split; [reflexivity |]. intros _.
    split; [reflexivity |]. eexists. reflexivity.
  - simpl. destruct join_url as [url|].
    + unfold range0.
      rewrite (fill_zoom_cells self url (pretty id) (drawn_password api) 0
                 (length (timeslots self)) sh) by lia.
      rewrite drop_0, firstn_all. unfold prepend, patched_outcome.
      split; [done |]. intros _ _. by exists host, id, (Some url).
    + rewrite fill_zoom_cells_no_url by done. unfold prepend, patched_outcome.
      split; [done |]. intros _ _. by exists host, id, None.
Qed.




(* ===================================================================== *)
(** * Properties: grouping rows into sessions *)
(* ===================================================================== *)

Section Sorted.

Lemma StronglySorted_seq (a n : nat) : StronglySorted lt (seq a n).
Proof.
  revert a. induction n as [|n IH]; intros a; simpl; constructor; [apply IH |].
  apply Forall_forall. intros x Hx%list_elem_of_In%in_seq. lia.
Qed.

Lemma StronglySorted_filter (P : nat -> Prop) `{!∀ x, Decision (P x)} (l : list nat) :
  StronglySorted lt l -> StronglySorted lt (filter P l).
Proof.
  induction 1 as [|x l Hl IH Hx]; [constructor |].
  rewrite filter_cons. destruct (decide (P x)); [| done].
  constructor; [done |].
  apply Forall_forall. intros y [_ Hy]%list_elem_of_filter.
  by apply (proj1 (Forall_forall _ _) Hx).
Qed.

End Sorted.

Section Grouping.

Variables (sh : sheet) (include_breaks : bool).

Lemma grouped_empty : grouped sh include_breaks [] ∅.
Proof. intros key. by rewrite lookup_empty. Qed.

Lemma get_sessions_row_skipped sessions r :
  row_kept sh include_breaks r = false ->
  get_sessions_row sh include_breaks sessions r = Ok sessions.
Proof.
  unfold row_kept, get_sessions_row.
  destruct (sh !! (r, "Event")) as [ev|]; [| by destruct (negb _ && _)].
  intros [-> H]%orb_false_iff. apply negb_false_iff in H.
  by apply bool_decide_eq_true in H as ->.
Qed.

Lemma get_sessions_row_kept sessions r :
  row_kept sh include_breaks r = true ->
  is_Some (sh !! (r, "Session")) ->
  ∃ key,
    row_key sh r = Some key
    ∧ get_sessions_row sh include_breaks sessions r
      = Ok (alter (append_timeslot r) key
              (match sessions !! key with
               | None =>
                   <[key := mk_session (default "" (sh !! (r, "Event")))
                              (default "" (sh !! (r, "Session"))) []]> sessions
               | Some _ => sessions
               end)).
Proof.
  unfold row_kept, get_sessions_row, row_key.
  destruct (sh !! (r, "Event")) as [ev|]; [| done].
  intros Hkept [sn ->]. exists (ev +:+ "-" +:+ sn). split; [done |].
  destruct include_breaks; simpl in *; [done |].
  apply negb_true_iff, bool_decide_eq_false in Hkept.
  rewrite bool_decide_eq_false_2 by congruence. done.
Qed.

Lemma grouped_step done sessions r :
  grouped sh include_breaks done sessions ->
  (row_kept sh include_breaks r = true -> is_Some (sh !! (r, "Session"))) ->
  ∃ sessions',
    get_sessions_row sh include_breaks sessions r = Ok sessions'
    ∧ grouped sh include_breaks (done ++ [r]) sessions'.
Proof.
  intros Hg Hsn.
  destruct (row_kept sh include_breaks r) eqn:Hkept.
  - destruct (get_sessions_row_kept sessions r Hkept (Hsn eq_refl))
      as (key0 & Hkey0 & ->).
    eexists. split; [reflexivity |].
    intros key. rewrite !filter_app, !filter_cons, !filter_nil.
    rewrite decide_True by done. rewrite filter_cons, filter_nil.
    destruct (decide (key = key0)) as [->|Hne].
    + rewrite decide_True by done. rewrite lookup_alter_eq.
      specialize (Hg key0).
      destruct (sessions !! key0) as [s|] eqn:Hs.
      * rewrite Hs. simpl. destruct Hg as [-> _]. split; [done |].
        by intros [? ?]%app_eq_nil.
      * rewrite lookup_insert_eq. simpl. by rewrite Hg.
    + rewrite decide_False by congruence. rewrite app_nil_r.
      rewrite lookup_alter_ne by done.
      specialize (Hg key).
      destruct (sessions !! key0); [done |].
      by rewrite lookup_insert_ne.
  - rewrite get_sessions_row_skipped by done.
    eexists. split; [reflexivity |].
    intros key. rewrite !filter_app, !filter_cons, !filter_nil.
    rewrite decide_False by congruence. rewrite app_nil_r. apply Hg.
Qed.

Lemma grouped_rows rows done sessions :
  grouped sh include_breaks done sessions ->
  Forall (fun r => is_Some (sh !! (r, "Session")))
         (filter (fun r => row_kept sh include_breaks r = true) rows) ->
  ∃ sessions',
    get_sessions_rows sh include_breaks rows sessions = Ok sessions'
    ∧ grouped sh include_breaks (done ++ rows) sessions'.
Proof.
  revert done sessions. induction rows as [|r rows IH]; intros done sessions Hg Hall.
  - exists sessions. by rewrite app_nil_r.
  - rewrite filter_cons in Hall.
    destruct (grouped_step done sessions r Hg) as (s1 & Hs1 & Hg1).
    { intros Hk. rewrite decide_True in Hall by done. by inversion Hall. }
    destruct (IH (done ++ [r]) s1 Hg1) as (s2 & Hs2 & Hg2).
    { destruct (decide _); [by inversion Hall | done]. }
    exists s2. simpl. rewrite Hs1. simpl. split; [done |].
    by rewrite <- app_assoc in Hg2.
Qed.

End Grouping.

(** C4, as the code has it. On a day sheet whose kept rows (rows 3 to the
    last row, without rows whose event is empty and, unless breaks are
    included, rows whose event is BREAK) all have a session name,
    [get_sessions] returns, each session it returns lists, in increasing
    row order, all kept rows whose key (event, dash, session) is the
    session's key, and every kept row is in exactly one session. *)
Theorem get_sessions_groups_by_key (d : Day) (sh : sheet) (include_breaks : bool) :
  Forall (fun r => is_Some (sh !! (r, "Session"))) (kept_rows d sh include_breaks) ->
  ∃ sessions,
    get_sessions d sh include_breaks = Ok sessions
    ∧ keyed_sessions d sh include_breaks sessions.
Proof.
  intros Hall.
  destruct (grouped_rows sh include_breaks (session_rows d) [] ∅
              (grouped_empty sh include_breaks) Hall) as (sessions & Hrun & Hg).
  exists sessions. split; [done |]. simpl in Hg.
  unfold keyed_sessions, kept_rows in *. split.
  - intros key s Hs. specialize (Hg key). rewrite Hs in Hg.
    destruct Hg as [Hts Hne]. split; [done |]. split; [done |].
    rewrite Hts. apply StronglySorted_filter, StronglySorted_filter.
    apply StronglySorted_seq.
  - intros r Hr.
    assert (Hkey : ∃ key, row_key sh r = Some key).
    { pose proof (proj1 (Forall_forall _ _) Hall r Hr) as [sn Hsn].
      apply list_elem_of_filter in Hr as [Hkept _].
      unfold row_kept in Hkept. unfold row_key. rewrite Hsn.
      destruct (sh !! (r, "Event")); [eauto | done]. }
    destruct Hkey as [key Hkey]. pose proof (Hg key) as Hk.
    destruct (sessions !! key) as [s|] eqn:Hs.
    + exists key, s. destruct Hk as [Hts _]. split; [done |]. split.
      * rewrite Hts. by apply list_elem_of_filter.
      * intros key' s' Hs' Hin. specialize (Hg key'). rewrite Hs' in Hg.
        destruct Hg as [Hts' _]. rewrite Hts' in Hin.
        apply list_elem_of_filter in Hin as [Hin _]. congruence.
    + exfalso.
      assert (Hin : r ∈ filter (fun r => row_key sh r = Some key)
                (filter (fun r => row_kept sh include_breaks r = true)
                        (session_rows d)))
        by (by apply list_elem_of_filter).
      rewrite Hk in Hin. by apply elem_of_nil in Hin.
Qed.

Lemma get_sessions_groups_by_key_witness :
  ∃ sessions,
    get_sessions Sample.tuesday Sample.opening_sheet false = Ok sessions
    ∧ keyed_sessions Sample.tuesday Sample.opening_sheet false sessions.
Proof.
  apply (get_sessions_groups_by_key Sample.tuesday Sample.opening_sheet false).
  apply (bool_decide_unpack _). vm_compute. exact I.
Defined.

(** C4, as stated, fails: on a sheet whose rows 3 and 5 carry the same
    event and session and row 4 another one, the session of rows 3 and 5
    is not a run of consecutive rows. *)
Lemma get_sessions_interleaved_not_contiguous :
  ∃ sessions,
    get_sessions Interleaved.the_day Interleaved.the_sheet false = Ok sessions
    ∧ ¬ contiguous_sessions Interleaved.the_day Interleaved.the_sheet false sessions.
Proof.
  assert (Hs : timeslots <$>
                 (match get_sessions Interleaved.the_day Interleaved.the_sheet false with
                  | Ok m => m !! "A-x"
                  | Raise _ => None
                  end) = Some [3; 5]%nat) by (vm_compute; reflexivity).
  destruct (get_sessions Interleaved.the_day Interleaved.the_sheet false) as [m|e];
    [| done].
  exists m. split; [done |]. intros [Hruns _].
  destruct (m !! "A-x") as [s|] eqn:Hlook; [| done].
  destruct (Hruns "A-x" s Hlook) as [(before & after & Hrun) _].
  injection Hs as Hts. rewrite Hts in Hrun.
  assert (Hkept : kept_rows Interleaved.the_day Interleaved.the_sheet false
                  = [3; 4; 5]%nat) by (vm_compute; reflexivity).
  rewrite Hkept in Hrun.
  destruct before as [|a [|b [|c before]]]; simplify_eq.
  destruct before; simplify_eq.
Qed.

(** Rows of different names are merged when their keys coincide. *)
Lemma get_sessions_merges_equal_keys :
  ∃ sessions s,
    get_sessions Collision.the_day Collision.the_sheet false = Ok sessions
    ∧ sessions !! "A-B-C" = Some s
    ∧ timeslots s = [3; 4]%nat
    ∧ ¬ same_names Collision.the_sheet (timeslots s).
Proof.
  assert (Hs : timeslots <$>
                 (match get_sessions Collision.the_day Collision.the_sheet false with
                  | Ok m => m !! "A-B-C"
                  | Raise _ => None
                  end) = Some [3; 4]%nat) by (vm_compute; reflexivity).
  destruct (get_sessions Collision.the_day Collision.the_sheet false) as [m|e]; [| done].
  destruct (m !! "A-B-C") as [s|] eqn:Hlook; [| done].
  exists m, s. injection Hs as Hts. split; [done |]. split; [done |].
  split; [done |]. rewrite Hts. intros Hsame.
  destruct (Hsame 3%nat 4%nat) as [Hev _]; [set_solver | set_solver |].
  vm_compute in Hev. discriminate.
Qed.

(* ===================================================================== *)
(** * Properties: the registrant sync *)
(* ===================================================================== *)



(** C5. A second run of [get_all], in a directory whose [registered.json]
    marks the only registrant as emailed, with no password-request file
    and no new attendee on the listing, does not come to an empty batch:
    it raises [NameError] at [load_already_registered()], having printed
    the (empty) list of password requests and nothing else. *)
Theorem get_all_rerun_raises_name_error :
  Auth0.outcome
    (Auth0.get_all (Auth0Spec.sample_world [("Ann", "ann@vis.org")] []) true (-1))
  = Raise NameError
  ∧ Auth0.events
      (Auth0.get_all (Auth0Spec.sample_world [("Ann", "ann@vis.org")] []) true (-1))
    = [Auth0.PrintPasswordRequests []].
Proof.
  split; vm_compute; reflexivity.
Qed.

(* ===================================================================== *)
(** * Further properties: links and names *)
(* ===================================================================== *)

(** From here on concatenations with a literal in front are computed. *)
#[local] Arguments String.append !_ _ : simpl nomatch.

Section Prefixes.

Lemma strip_prefix_app p s : strip_prefix p (p +:+ s) = Some s.
Proof.
  induction p as [|a p IH]; [by destruct s |].
  change (strip_prefix (String a p) (String a (p +:+ s)) = Some s).
  cbn [strip_prefix]. by rewrite Ascii.eqb_refl.
Qed.

Lemma strip_prefix_inv p s rest : strip_prefix p s = Some rest -> s = p +:+ rest.
Proof.
  revert s. induction p as [|a p IH]; intros s.
  - destruct s; cbn; by intros [= <-].
  - destruct s as [|b s]; [done |]. cbn.
    destruct (Ascii.eqb_spec a b) as [->|]; [| done].
    intros H. by rewrite (IH s H).
Qed.

Lemma line_of_no_newline s : all_chars (fun c => negb (is_newline c)) (line_of s) = true.
Proof.
  induction s as [|c s IH]; [done |]. cbn [line_of].
  destruct (Ascii.eqb c "010") eqn:Hc; [done |].
  cbn [all_chars]. unfold is_newline at 1. by rewrite Hc, IH.
Qed.

Lemma line_of_id s :
  all_chars (fun c => negb (is_newline c)) s = true -> line_of s = s.
Proof.
  induction s as [|c s IH]; [done |]. cbn [all_chars line_of].
  intros [Hc Hs]%andb_true_iff. apply negb_true_iff in Hc.
  unfold is_newline in Hc. by rewrite Hc, IH.
Qed.

(** What follows the first line is empty or starts with a newline. *)
Lemma line_of_split s :
  ∃ tail, s = line_of s +:+ tail
          ∧ not_starting_with (fun c => negb (is_newline c)) tail = true.
Proof.
  induction s as [|c s (tail & IH & Htail)]; [by exists "" |]. cbn.
  destruct (Ascii.eqb c "010") eqn:Hc.
  - exists (String c s). split; [done |]. cbn. unfold is_newline. by rewrite Hc.
  - exists tail. split; [| done]. cbn. by rewrite <- IH.
Qed.

End Prefixes.

(** X1. [match_youtube_id] reads back the id from the link that
    [schedule_youtube_broadcast] writes into the sheet, for every id that
    is not empty and contains no newline. *)
Theorem match_youtube_id_of_link (id : string) :
  id ≠ "" ->
  all_chars (fun c => negb (is_newline c)) id = true ->
  match_youtube_id (Some ("https://youtu.be/" +:+ id)) = Ok id.
Proof.
  intros Hne Hline. unfold match_youtube_id.
  rewrite strip_prefix_app, line_of_id by done. by destruct id.
Qed.

Lemma match_youtube_id_of_link_witness :
  match_youtube_id (Some "https://youtu.be/abc123") = Ok "abc123".
Proof.
  apply (match_youtube_id_of_link "abc123"); [discriminate | reflexivity].
Defined.

(** X2. On an empty cell [match_youtube_id] raises [TypeError].  On a
    text, an id it returns is never empty, holds no newline, and the text
    is the prefix, the id and a rest that is empty or starts a new line;
    without the prefix, or with nothing on the line after it, the call
    raises [AttributeError]. *)
Theorem match_youtube_id_sound (u : string) :
  match_youtube_id None = Raise TypeError
  ∧ match match_youtube_id (Some u) with
    | Ok id =>
        id ≠ ""
        ∧ all_chars (fun c => negb (is_newline c)) id = true
        ∧ ∃ tail, u = "https://youtu.be/" +:+ id +:+ tail
                  ∧ not_starting_with (fun c => negb (is_newline c)) tail = true
    | Raise e =>
        e = AttributeError
        ∧ ∀ c rest, u = "https://youtu.be/" +:+ String c rest ->
            is_newline c = true
    end.
Proof.
  split; [reflexivity |]. unfold match_youtube_id.
  destruct (strip_prefix "https://youtu.be/" u) as [rest|] eqn:Hp.
  - apply strip_prefix_inv in Hp as ->.
    destruct (line_of rest) as [|c g] eqn:Hg.
    + split; [done |]. intros c rest' Heq.
      assert (Hr : strip_prefix "https://youtu.be/" ("https://youtu.be/" +:+ rest)
                   = strip_prefix "https://youtu.be/"
                       ("https://youtu.be/" +:+ String c rest')) by congruence.
      rewrite !strip_prefix_app in Hr. injection Hr as ->.
      cbn in Hg. unfold is_newline. by destruct (Ascii.eqb c "010").
    + split; [done |]. split.
      * rewrite <- Hg. apply line_of_no_newline.
      * destruct (line_of_split rest) as (tail & Hrest & Htail).
        exists tail. split; [| done]. rewrite Hg in Hrest. by rewrite Hrest at 1.
  - split; [done |]. intros c rest Hu.
    assert (Hp' : strip_prefix "https://youtu.be/" u = Some (String c rest)).
    { rewrite Hu. exact (strip_prefix_app "https://youtu.be/" _). }
    congruence.
Qed.

Lemma span_digits_app (g rest : string) :
  all_chars is_digit g = true -> not_starting_with is_digit rest = true ->
  span_digits (g +:+ rest) = (g, rest).
Proof.
  intros Hg Hrest. induction g as [|c g IH].
  - destruct rest as [|c rest]; [done |]. cbn in *.
    apply negb_true_iff in Hrest. by rewrite Hrest.
  - cbn in Hg. apply andb_true_iff in Hg as [Hc Hg]. cbn. by rewrite Hc, (IH Hg).
Qed.

Lemma append_empty_r (s : string) : s +:+ "" = s.
Proof. induction s as [|c s IH]; [done |]. cbn. by rewrite IH. Qed.

Lemma match_discord_url_link (c : ascii) (g ch tail : string) :
  is_newline c = false ->
  g ≠ "" -> all_chars is_digit g = true ->
  ch ≠ "" -> all_chars is_digit ch = true ->
  not_starting_with is_digit tail = true ->
  match_discord_url
    (Some ("https://discord" +:+ String c
             ("com/channels/" +:+ g +:+ "/" +:+ ch +:+ tail))) = Ok (g, ch).
Proof.
  intros Hc Hg Hgd Hch Hchd Htail.
  unfold match_discord_url. rewrite strip_prefix_app.
  unfold is_newline in Hc. rewrite Hc, strip_prefix_app.
  rewrite (span_digits_app g ("/" +:+ ch +:+ tail)) by done.
  destruct g as [|g0 g]; [done |]. cbn [String.append].
  rewrite Ascii.eqb_refl.
  rewrite (span_digits_app ch tail) by done.
  by destruct ch.
Qed.

(** X3. [match_discord_url] returns the guild and channel numbers of a
    channel link, whatever single character other than a newline stands
    where the dot of discord.com is and whatever follows the channel
    number; [match_discord_guild_id] and [match_discord_channel_id] are
    its two components. *)
Theorem match_discord_url_accepts (c : ascii) (g ch tail : string) :
  is_newline c = false ->
  g ≠ "" -> all_chars is_digit g = true ->
  ch ≠ "" -> all_chars is_digit ch = true ->
  not_starting_with is_digit tail = true ->
  let url := Some ("https://discord" +:+ String c
                     ("com/channels/" +:+ g +:+ "/" +:+ ch +:+ tail)) in
  match_discord_url url = Ok (g, ch)
  ∧ match_discord_guild_id url = Ok g
  ∧ match_discord_channel_id url = Ok ch.
Proof.
  intros Hc Hg Hgd Hch Hchd Htail url.
  pose proof (match_discord_url_link c g ch tail Hc Hg Hgd Hch Hchd Htail) as Hurl.
  unfold match_discord_guild_id, match_discord_channel_id. fold url in Hurl.
  by rewrite Hurl.
Qed.

Lemma match_discord_url_accepts_witness :
  match_discord_url (Some "https://discord.com/channels/7001/42") = Ok ("7001", "42")
  ∧ match_discord_url (Some "https://discordXcom/channels/7001/42?x=1")
    = Ok ("7001", "42").
Proof.
  split.
  - apply (match_discord_url_accepts "." "7001" "42" ""); try reflexivity; discriminate.
  - apply (match_discord_url_accepts "X" "7001" "42" "?x=1"); try reflexivity;
      discriminate.
Defined.

(** X4. For a session whose first time slot has no Discord link,
    [has_discord_channel] is false and [discord_ids],
    [discord_guild_id] and [discord_channel_id] raise [TypeError]; with a
    channel link in the cell, [has_discord_channel] is true and the three
    return the numbers of the link. *)
Theorem session_discord_link (self : Session) (sh : sheet) (r0 : nat) :
  head (timeslots self) = Some r0 ->
  (sh !! (r0, "Discord Link") = None ->
     has_discord_channel self sh = Ok false
     ∧ discord_ids self sh = Raise TypeError
     ∧ discord_guild_id self sh = Raise TypeError
     ∧ discord_channel_id self sh = Raise TypeError)
  ∧ (∀ g ch,
       g ≠ "" -> all_chars is_digit g = true ->
       ch ≠ "" -> all_chars is_digit ch = true ->
       sh !! (r0, "Discord Link")
       = Some ("https://discord.com/channels/" +:+ g +:+ "/" +:+ ch) ->
       has_discord_channel self sh = Ok true
       ∧ discord_ids self sh = Ok (g, ch)
       ∧ discord_guild_id self sh = Ok g
       ∧ discord_channel_id self sh = Ok ch).
Proof.
  intros Hhead.
  unfold has_discord_channel, discord_ids, discord_guild_id, discord_channel_id.
  rewrite (timeslot_value_head _ _ _ _ Hhead). split.
  - by intros ->.
  - intros g ch Hg Hgd Hch Hchd ->.
    pose proof (match_discord_url_link "." g ch "" eq_refl Hg Hgd Hch Hchd eq_refl)
      as Hurl.
    rewrite append_empty_r in Hurl.
    unfold match_discord_guild_id, match_discord_channel_id.
    change ("https://discord" +:+ String "." ("com/channels/" +:+ g +:+ "/" +:+ ch))
      with ("https://discord.com/channels/" +:+ g +:+ "/" +:+ ch) in Hurl.
    cbn [rbind]. rewrite Hurl. cbn [rbind].
    split; [by rewrite bool_decide_eq_true_2 | done].
Qed.

Lemma session_discord_link_witness :
  has_discord_channel Sample.opening Sample.opening_sheet = Ok false
  ∧ discord_ids Sample.opening Sample.opening_sheet = Raise TypeError.
Proof.
  destruct (session_discord_link Sample.opening Sample.opening_sheet 3%nat)
    as [H _]; [reflexivity |].
  destruct H as (H1 & H2 & _); [vm_compute; reflexivity |].
  by split.
Defined.

Section CharClasses.

Variable P : ascii -> bool.

Lemma all_chars_impl (Q : ascii -> bool) s :
  (∀ c, P c = true -> Q c = true) -> all_chars P s = true -> all_chars Q s = true.
Proof.
  intros HPQ. induction s as [|c s IH]; [done |]. cbn.
  intros [Hc Hs]%andb_true_iff. by rewrite (HPQ c Hc), (IH Hs).
Qed.

Lemma all_chars_both (Q : ascii -> bool) s :
  all_chars P s = true -> all_chars Q s = true ->
  all_chars (fun c => P c && Q c) s = true.
Proof.
  induction s as [|c s IH]; [done |]. cbn.
  intros [Hc Hs]%andb_true_iff [Hc' Hs']%andb_true_iff.
  by rewrite Hc, Hc', (IH Hs Hs').
Qed.

Lemma all_chars_keep_chars s : all_chars P (keep_chars P s) = true.
Proof.
  induction s as [|c s IH]; [done |]. cbn.
  destruct (P c) eqn:Hc; [| done]. cbn. by rewrite Hc, IH.
Qed.

Lemma all_chars_kept (keep : ascii -> bool) s :
  all_chars P s = true -> all_chars P (keep_chars keep s) = true.
Proof.
  induction s as [|c s IH]; [done |]. cbn.
  intros [Hc Hs]%andb_true_iff. destruct (keep c); [| by apply IH].
  cbn. by rewrite Hc, (IH Hs).
Qed.

Lemma all_chars_replace1 a b s :
  P b = true -> all_chars P s = true -> all_chars P (replace1 a b s) = true.
Proof.
  intros Hb. induction s as [|c s IH]; [done |]. cbn.
  intros [Hc Hs]%andb_true_iff. rewrite (IH Hs).
  by destruct (Ascii.eqb c a); rewrite ?Hb, ?Hc.
Qed.

Lemma all_chars_squeeze s :
  all_chars P s = true -> all_chars P (squeeze_dashes s) = true.
Proof.
  induction s as [|c s IH]; [done |]. cbn.
  intros [Hc Hs]%andb_true_iff. specialize (IH Hs).
  destruct (Ascii.eqb c "-").
  - destruct (squeeze_dashes s) as [|d t]; cbn; [by rewrite Hc |].
    destruct (Ascii.eqb d "-"); [done |]. cbn. by rewrite Hc.
  - cbn. by rewrite Hc.
Qed.

Lemma all_chars_slice0 n s :
  all_chars P s = true -> all_chars P (slice0 n s) = true.
Proof.
  unfold slice0. revert s. induction n as [|n IH]; intros [|c s]; cbn; try done.
  intros [Hc Hs]%andb_true_iff. by rewrite Hc, (IH s Hs).
Qed.

Lemma all_chars_lstrip s :
  all_chars P s = true -> all_chars P (Auth0.lstrip s) = true.
Proof.
  induction s as [|c s IH]; [done |]. cbn.
  intros H. destruct (Auth0.is_space c); [| done].
  apply andb_true_iff in H as [_ Hs]. by apply IH.
Qed.

Lemma all_chars_rstrip s :
  all_chars P s = true -> all_chars P (Auth0.rstrip s) = true.
Proof.
  induction s as [|c s IH]; [done |]. cbn.
  intros [Hc Hs]%andb_true_iff. specialize (IH Hs).
  destruct (Auth0.rstrip s) as [|d t].
  - destruct (Auth0.is_space c); [done |]. cbn. by rewrite Hc.
  - cbn in *. by rewrite Hc, IH.
Qed.

End CharClasses.

Section Dashes.

Lemma no_double_dash_cons a b s :
  no_double_dash (String a (String b s))
  = negb (Ascii.eqb a "-" && Ascii.eqb b "-") && no_double_dash (String b s).
Proof. done. Qed.

Lemma no_double_dash_squeeze s : no_double_dash (squeeze_dashes s) = true.
Proof.
  induction s as [|c s IH]; [done |]. cbn [squeeze_dashes].
  destruct (Ascii.eqb c "-") eqn:Hc.
  - destruct (squeeze_dashes s) as [|d t]; [done |].
    destruct (Ascii.eqb d "-") eqn:Hd; [done |].
    by rewrite no_double_dash_cons, Hd, andb_false_r, IH.
  - destruct (squeeze_dashes s) as [|d t]; [done |].
    by rewrite no_double_dash_cons, Hc, IH.
Qed.

Lemma no_double_dash_tail c s :
  no_double_dash (String c s) = true -> no_double_dash s = true.
Proof.
  destruct s; [done |]. rewrite no_double_dash_cons. by intros [_ H]%andb_true_iff.
Qed.

Lemma no_double_dash_slice0 n s :
  no_double_dash s = true -> no_double_dash (slice0 n s) = true.
Proof.
  unfold slice0. revert s. induction n as [|n IH]; intros [|c s]; try done.
  intros H. pose proof (IH s (no_double_dash_tail c s H)) as IHs.
  cbn [String.substring]. destruct n as [|n]; [by destruct s |].
  destruct s as [|b s]; [done |]. cbn [String.substring] in *.
  rewrite no_double_dash_cons in H |- *.
  apply andb_true_iff in H as [Hab _]. by rewrite Hab, IHs.
Qed.

Lemma no_double_dash_lstrip s :
  no_double_dash s = true -> no_double_dash (Auth0.lstrip s) = true.
Proof.
  induction s as [|c s IH]; [done |]. cbn [Auth0.lstrip].
  intros H. destruct (Auth0.is_space c); [| done].
  apply IH. by apply (no_double_dash_tail c).
Qed.

Lemma no_double_dash_rstrip s :
  no_double_dash s = true -> no_double_dash (Auth0.rstrip s) = true.
Proof.
  induction s as [|c s IH]; [done |]. intros H.
  pose proof (IH (no_double_dash_tail c s H)) as IHs.
  cbn [Auth0.rstrip].
  destruct (Auth0.rstrip s) as [|d t] eqn:Hr.
  - by destruct (Auth0.is_space c).
  - destruct s as [|b s]; [done |].
    assert (Hd : d = b).
    { cbn [Auth0.rstrip] in Hr. destruct (Auth0.rstrip s).
      - destruct (Auth0.is_space b); [done | by injection Hr].
      - by injection Hr. }
    subst d. rewrite no_double_dash_cons in H |- *.
    apply andb_true_iff in H as [Hab _]. by rewrite Hab, IHs.
Qed.

End Dashes.

Section Lengths.

Lemma length_lstrip s : (String.length (Auth0.lstrip s) <= String.length s)%nat.
Proof.
  induction s as [|c s IH]; [done |]. cbn.
  destruct (Auth0.is_space c); cbn; lia.
Qed.

Lemma length_rstrip s : (String.length (Auth0.rstrip s) <= String.length s)%nat.
Proof.
  induction s as [|c s IH]; [done |]. cbn.
  destruct (Auth0.rstrip s); [destruct (Auth0.is_space c) |]; cbn in *; lia.
Qed.

Lemma lower_char_not_upper c : is_upper (lower_char c) = false.
Proof. by destruct c as [[] [] [] [] [] [] [] []]; vm_compute. Qed.

Lemma lower_not_upper s : all_chars (fun c => negb (is_upper c)) (lower s) = true.
Proof.
  induction s as [|c s IH]; [done |]. cbn. by rewrite lower_char_not_upper, IH.
Qed.

Lemma channel_name_char_spec c :
  channel_char c && negb (is_upper c) = true -> channel_name_char c = true.
Proof. by destruct c as [[] [] [] [] [] [] [] []]; vm_compute. Qed.

Lemma category_name_char_spec c :
  category_char c && negb (is_upper c) = true -> category_name_char c = true.
Proof. by destruct c as [[] [] [] [] [] [] [] []]; vm_compute. Qed.

End Lengths.

(** X5. [chat_category_name] always returns at most 100 characters, all
    of them digits, small ASCII letters, dashes or spaces, with no two
    dashes in a row. *)
Theorem chat_category_name_valid (self : Session) :
  len (chat_category_name self) <= 100
  ∧ all_chars category_name_char (chat_category_name self) = true
  ∧ no_double_dash (chat_category_name self) = true.
Proof.
  unfold chat_category_name.
  set (n := squeeze_dashes (keep_chars category_char (lower (event self)))).
  assert (Hchars : all_chars category_name_char n = true).
  { apply (all_chars_impl (fun c => category_char c && negb (is_upper c)));
      [apply category_name_char_spec |].
    apply all_chars_squeeze, all_chars_both.
    - apply all_chars_keep_chars.
    - apply all_chars_kept, lower_not_upper. }
  assert (Hdash : no_double_dash n = true) by apply no_double_dash_squeeze.
  destruct (Z.ltb_spec 100 (len n)) as [Hlong|Hshort]; [| done].
  split; [| split].
  - unfold len, Auth0.strip.
    pose proof (length_rstrip (Auth0.lstrip (slice0 99 n))).
    pose proof (length_lstrip (slice0 99 n)).
    pose proof (length_slice0 99 n). lia.
  - by apply all_chars_rstrip, all_chars_lstrip, all_chars_slice0.
  - by apply no_double_dash_rstrip, no_double_dash_lstrip, no_double_dash_slice0.
Qed.

(** X6. For a session with a first time slot, [chat_channel_name]
    returns: the word general when the slot's event type is Tutorial or
    its event and session cells are equal; in every case a name of at most
    100 characters, all of them digits, small ASCII letters or dashes,
    with no two dashes in a row. *)
Theorem chat_channel_name_valid (self : Session) (sh : sheet) (r0 : nat) :
  head (timeslots self) = Some r0 ->
  ∃ n,
    chat_channel_name self sh = Ok n
    ∧ (sh !! (r0, "Event Type") = Some "Tutorial"
       ∨ sh !! (r0, "Event") = sh !! (r0, "Session") -> n = "general")
    ∧ len n <= 100
    ∧ all_chars channel_name_char n = true
    ∧ no_double_dash n = true.
Proof.
  intros Hhead. unfold chat_channel_name.
  rewrite !(timeslot_value_head _ _ _ _ Hhead). cbn [rbind].
  set (n := squeeze_dashes
              (keep_chars channel_char (replace1 " " "-" (lower (name self))))).
  assert (Hgeneral : ∃ b : bool,
    (if decide (sh !! (r0, "Event Type") = Some "Tutorial") then Ok true
     else Ok (bool_decide (sh !! (r0, "Event") = sh !! (r0, "Session")))) = Ok b
    ∧ (sh !! (r0, "Event Type") = Some "Tutorial"
       ∨ sh !! (r0, "Event") = sh !! (r0, "Session") -> b = true)).
  { destruct (decide (sh !! (r0, "Event Type") = Some "Tutorial")) as [Ht|Ht].
    - by exists true.
    - eexists. split; [reflexivity |]. intros [? | Heq]; [done |].
      by apply bool_decide_eq_true_2. }
  destruct Hgeneral as (b & -> & Hb). cbn [rbind].
  destruct b.
  { exists "general". by repeat split. }
  assert (Hchars : all_chars channel_name_char n = true).
  { apply (all_chars_impl (fun c => channel_char c && negb (is_upper c)));
      [apply channel_name_char_spec |].
    apply all_chars_squeeze, all_chars_both.
    - apply all_chars_keep_chars.
    - apply all_chars_kept, all_chars_replace1; [done | apply lower_not_upper]. }
  assert (Hdash : no_double_dash n = true) by apply no_double_dash_squeeze.
  eexists. split; [reflexivity |]. split.
  { intros H. by specialize (Hb H). }
  destruct (Z.ltb_spec 100 (len n)) as [Hlong|Hshort]; [| done].
  split; [| split].
  - unfold len. pose proof (length_slice0 99 n). lia.
  - by apply all_chars_slice0.
  - by apply no_double_dash_slice0.
Qed.

Lemma chat_channel_name_valid_witness :
  chat_channel_name Sample.opening Sample.opening_sheet = Ok "opening".
Proof.
  destruct (chat_channel_name_valid Sample.opening Sample.opening_sheet 3%nat)
    as (n & Hrun & _); [reflexivity |].
  rewrite Hrun. f_equal.
  assert (Hn : Ok n = chat_channel_name Sample.opening Sample.opening_sheet)
    by (by rewrite Hrun).
  vm_compute in Hn. by injection Hn.
Defined.

(* ===================================================================== *)
(** * Further properties: titles *)
(* ===================================================================== *)

(** X7. For a session whose first and last time slots hold HHMM-HHMM
    strings, on a valid date, [title_card_title] returns the event and
    session title followed by the start of the first slot and the end of
    the last slot, written HH:MM-HH:MM. *)
Theorem title_card_title_times (d : Day) (self : Session) (sh : sheet)
    (r0 rl : nat) (s0 sl : string) :
  head (timeslots self) = Some r0 ->
  last (timeslots self) = Some rl ->
  sh !! (r0, "Time Slot") = Some s0 ->
  sh !! (rl, "Time Slot") = Some sl ->
  is_hhmm_hhmm s0 = true -> is_hhmm_hhmm sl = true ->
  valid_date (month d) (day d) ->
  title_card_title d self sh
  = Ok (event_session_title self +:+ ": "
        +:+ String.substring 0 2 s0 +:+ ":" +:+ String.substring 2 2 s0
        +:+ "-" +:+ String.substring 5 2 sl +:+ ":" +:+ String.substring 7 2 sl).
Proof.
  intros Hhead Hlast Hs0 Hsl
    (a & b & c & dd & e & f & g & h & -> & H1 & H2)%is_hhmm_hhmm_inv
    (a' & b' & c' & dd' & e' & f' & g' & h' & -> & H1' & H2')%is_hhmm_hhmm_inv
    Hdate.
  unfold title_card_title, session_time, timeslot_value, num_timeslots.
  rewrite (index_head _ _ Hhead), (index_last _ _ Hlast). cbn [rbind].
  rewrite Hs0, Hsl.
  rewrite !parse_time_slot_chars by done. cbn [rbind fst snd].
  apply is_clock_spec in H1 as (Ha & Hb & Hc & Hd & _).
  apply is_clock_spec in H2' as (He & Hf & Hg & Hh & _).
  unfold format_time_slot. cbn [dt_hour dt_minute].
  by rewrite !two_digits_val.
Qed.

Lemma title_card_title_times_witness :
  title_card_title Sample.tuesday Sample.opening Sample.opening_sheet
  = Ok "VIS - Opening: 09:00-10:15".
Proof.
  rewrite (title_card_title_times Sample.tuesday Sample.opening Sample.opening_sheet
             3%nat 4%nat "0900-0930" "0930-1015").
  - reflexivity.
  - reflexivity.
  - reflexivity.
  - vm_compute. reflexivity.
  - vm_compute. reflexivity.
  - reflexivity.
  - reflexivity.
  - unfold valid_date. vm_compute. intuition discriminate.
Defined.

Lemma blank_angles_app s t : blank_angles (s +:+ t) = blank_angles s +:+ blank_angles t.
Proof. induction s as [|c s IH]; [done |]. cbn. by rewrite IH. Qed.

Lemma length_append s t :
  String.length (s +:+ t) = (String.length s + String.length t)%nat.
Proof. induction s as [|c s IH]; [done |]. cbn. by rewrite IH. Qed.

(** X8. The YouTube title of a session starts with the conference name
    and a colon; an event and session title of at most 82 characters
    follows whole, with only its angle brackets blanked, a longer one is
    cut after its 81st character. *)
Theorem session_youtube_title_cut (self : Session) :
  let title := blank_angles (event_session_title self) in
  (len (event_session_title self) <= 82 ->
     session_youtube_title self = "VIS Testing 2021: " +:+ title)
  ∧ (82 < len (event_session_title self) ->
     session_youtube_title self = "VIS Testing 2021: " +:+ slice0 81 title).
Proof.
  intros title. unfold session_youtube_title, make_youtube_title.
  rewrite replace_angles.
  change (CONFERENCE_NAME +:+ ": " +:+ event_session_title self)
    with ("VIS Testing 2021: " +:+ event_session_title self).
  rewrite blank_angles_app. fold title.
  change (blank_angles "VIS Testing 2021: ") with "VIS Testing 2021: ".
  assert (Hlen : len ("VIS Testing 2021: " +:+ title)
                 = 18 + len (event_session_title self)).
  { unfold len, title. rewrite length_append, length_blank_angles.
    change (String.length "VIS Testing 2021: ") with 18%nat. lia. }
  rewrite Hlen. split; intros H.
  - replace (100 <? 18 + len (event_session_title self)) with false
      by (symmetry; apply Z.ltb_ge; lia).
    reflexivity.
  - replace (100 <? 18 + len (event_session_title self)) with true
      by (symmetry; apply Z.ltb_lt; lia).
    reflexivity.
Qed.

Lemma session_youtube_title_cut_witness :
  session_youtube_title Sample.opening = "VIS Testing 2021: VIS - Opening".
Proof.
  destruct (session_youtube_title_cut Sample.opening) as [H _].
  rewrite H; [reflexivity | vm_compute; discriminate].
Defined.

(* ===================================================================== *)
(** * Further properties: the table of computers *)
(* ===================================================================== *)

(** X9. [get_computer] returns the first computer of the table whose ID
    is the one asked for, and raises [IndexError] exactly when no computer
    of the table has that ID. *)
Theorem get_computer_first (computers : list computer) (id : option string) :
  match get_computer computers id with
  | Ok c =>
      c_id c = id
      ∧ ∃ before after,
          computers = before ++ c :: after
          ∧ ∀ c', c' ∈ before -> c_id c' ≠ id
  | Raise e => e = IndexError ∧ ∀ c, c ∈ computers -> c_id c ≠ id
  end.
Proof.
  unfold get_computer. induction computers as [|c cs IH].
  - cbn. split; [done |]. by intros c ?%elem_of_nil.
  - rewrite filter_cons. destruct (decide (c_id c = id)) as [Hc|Hc].
    + rewrite (index_head (c :: _) c) by done. split; [done |].
      exists [], cs. split; [done |]. by intros c' ?%elem_of_nil.
    + destruct (index (filter (fun c => c_id c = id) cs) 0) as [c0|e].
      * destruct IH as (Hid & before & after & -> & Hbefore).
        split; [done |]. exists (c :: before), after. split; [done |].
        intros c' [-> | Hin]%elem_of_cons; [done | by apply Hbefore].
      * destruct IH as [-> Hall]. split; [done |].
        intros c' [-> | Hin]%elem_of_cons; [done | by apply Hall].
Qed.

Lemma populate_computer_snoc streams s c :
  populate_computer (streams ++ [s]) c
  = (if decide (c_stream_key (populate_computer streams c) = Some s.2)
     then mk_computer (c_id (populate_computer streams c))
                      (c_stream_key (populate_computer streams c)) (Some s.1)
     else populate_computer streams c).
Proof. unfold populate_computer. by rewrite foldl_app. Qed.

Lemma populate_computer_spec streams c :
  c_id (populate_computer streams c) = c_id c
  ∧ c_stream_key (populate_computer streams c) = c_stream_key c
  ∧ c_stream_key_id (populate_computer streams c)
    = match last (filter (fun s => c_stream_key c = Some s.2) streams) with
      | Some s => Some s.1
      | None => c_stream_key_id c
      end.
Proof.
  induction streams as [|s streams (Hid & Hkey & Hkid)] using rev_ind; [done |].
  rewrite populate_computer_snoc, filter_app, filter_cons, filter_nil.
  rewrite Hkey. destruct (decide (c_stream_key c = Some s.2)) as [Hs|Hs].
  - cbn. by rewrite last_snoc.
  - by rewrite app_nil_r.
Qed.

(** X10. [populate_stream_key_ids] keeps the number of computers, their
    IDs and their stream keys; a computer whose stream key is the name of
    a listed stream gets the id of the last such stream, and the other
    computers keep the stream key id they had. *)
Theorem populate_stream_key_ids_last (streams : list (string * string))
    (computers : list computer) :
  length (populate_stream_key_ids streams computers) = length computers
  ∧ ∀ i c, computers !! i = Some c ->
      ∃ c', populate_stream_key_ids streams computers !! i = Some c'
            ∧ c_id c' = c_id c
            ∧ c_stream_key c' = c_stream_key c
            ∧ c_stream_key_id c'
              = match last (filter (fun s => c_stream_key c = Some s.2) streams) with
                | Some s => Some s.1
                | None => c_stream_key_id c
                end.
Proof.
  unfold populate_stream_key_ids. split; [by rewrite length_fmap |].
  intros i c Hc. exists (populate_computer streams c).
  split; [by rewrite list_lookup_fmap, Hc |]. apply populate_computer_spec.
Qed.

Lemma populate_stream_key_ids_last_witness :
  ∃ c', populate_stream_key_ids [("id-1", "key-a"); ("id-2", "key-b"); ("id-3", "key-a")]
          [mk_computer (Some "A") (Some "key-a") None] !! 0%nat = Some c'
        ∧ c_stream_key_id c' = Some "id-3".
Proof.
  destruct (populate_stream_key_ids_last
              [("id-1", "key-a"); ("id-2", "key-b"); ("id-3", "key-a")]
              [mk_computer (Some "A") (Some "key-a") None]) as [_ H].
  destruct (H 0%nat (mk_computer (Some "A") (Some "key-a") None))
    as (c' & Hc' & _ & _ & Hkid); [reflexivity |].
  exists c'. split; [done |]. rewrite Hkid. reflexivity.
Defined.

Lemma index_fmap {A B} (f : A -> B) (l : list A) (i : Z) :
  index (f <$> l) i = rbind (index l i) (fun a => Ok (f a)).
Proof.
  unfold index. rewrite length_fmap, list_lookup_fmap.
  destruct (_ && _); [| done]. by destruct (l !! _).
Qed.

(** X11. Looking a computer up after [populate_stream_key_ids] finds the
    computer the table had under that ID, with its stream key id filled
    in, and fails for the same IDs as before. *)
Theorem get_computer_populated (streams : list (string * string))
    (computers : list computer) (id : option string) :
  get_computer (populate_stream_key_ids streams computers) id
  = rbind (get_computer computers id) (fun c => Ok (populate_computer streams c)).
Proof.
  unfold get_computer, populate_stream_key_ids.
  rewrite <- index_fmap. f_equal.
  induction computers as [|c cs IH]; [done |].
  rewrite fmap_cons, !filter_cons, IH.
  destruct (populate_computer_spec streams c) as (-> & _).
  by destruct (decide (c_id c = id)).
Qed.

(* ===================================================================== *)
(** * Further properties: the streaming life cycle *)
(* ===================================================================== *)

Lemma elem_of_notes (sh : sheet) (rows : list nat) (n : string) :
  n ∈ foldl (fun notes r => notes ∪ slot_notes sh r) (∅ : gset string) rows
  ↔ ∃ r, r ∈ rows ∧ n ∈ slot_notes sh r.
Proof.
  induction rows as [|r rows IH] using rev_ind.
  - cbn. split; [set_solver | by intros (r & ?%elem_of_nil & _)].
  - rewrite foldl_app. cbn. rewrite elem_of_union, IH. split.
    + intros [(r' & Hr' & Hn) | Hn].
      * exists r'. split; [apply elem_of_app; by left | done].
      * exists r. split; [apply elem_of_app; right; by apply list_elem_of_singleton | done].
    + intros (r' & [Hr' | ->%list_elem_of_singleton]%elem_of_app & Hn); eauto.
Qed.

Lemma manual_stream_note (self : Session) (sh : sheet) (r : nat) (notes : string) :
  r ∈ timeslots self ->
  sh !! (r, "Special Notes") = Some notes ->
  "Manual Stream" ∈ split_on "|" notes ->
  "Manual Stream" ∈ special_notes self sh.
Proof.
  intros Hr Hcell Hnote. apply elem_of_notes. exists r. split; [done |].
  unfold slot_notes. rewrite Hcell.
  destruct notes as [|c notes].
  - cbn in Hnote. by apply list_elem_of_singleton in Hnote.
  - cbn [truthy default]. apply elem_of_union. left. apply elem_of_union. left.
    by apply elem_of_list_to_set.
Qed.

(** X12. A session whose first time slot is of type Zoom Only or Discord
    Only, or one of whose time slots carries the note Manual Stream (as one
    of the pieces of its Special Notes cell between bars), is left alone by
    [start_streaming] and [stop_streaming]: each prints one message and
    returns, with no call to YouTube or Zoom. *)
Theorem streaming_skips_unstreamed (d : Day) (api : providers) (self : Session)
    (sh : sheet) (r0 : nat) :
  head (timeslots self) = Some r0 ->
  sh !! (r0, "Time Slot Type") = Some "Zoom Only"
  ∨ sh !! (r0, "Time Slot Type") = Some "Discord Only"
  ∨ (∃ r notes, r ∈ timeslots self
                ∧ sh !! (r, "Special Notes") = Some notes
                ∧ "Manual Stream" ∈ split_on "|" notes) ->
  (∃ msg, start_streaming d api self sh = (Ok tt, sh, [Print msg]))
  ∧ (∃ msg, stop_streaming api self sh = (Ok tt, sh, [Print msg])).
Proof.
  intros Hhead Hskip. unfold start_streaming, stop_streaming.
  do 2 run_step.
  destruct (decide (sh !! (r0, "Time Slot Type") = Some "Zoom Only"
                    ∨ sh !! (r0, "Time Slot Type") = Some "Discord Only"))
    as [Hty|Hty].
  { split; eexists; reflexivity. }
  destruct Hskip as [? | [? | (r & notes & Hr & Hcell & Hnote)]]; [tauto | tauto |].
  pose proof (manual_stream_note self sh r notes Hr Hcell Hnote) as Hman.
  do 4 run_step. rewrite !decide_True by done.
  split; eexists; reflexivity.
Qed.

Lemma streaming_skips_unstreamed_witness :
  ∃ msg,
    start_streaming Sample.tuesday (Sample.youtube "ready" "active" "good" 204)
      Sample.opening
      (<[(4%nat, "Special Notes") := "Live Captions|Manual Stream"]> Sample.opening_sheet)
    = (Ok tt,
       <[(4%nat, "Special Notes") := "Live Captions|Manual Stream"]> Sample.opening_sheet,
       [Print msg]).
Proof.
  destruct (streaming_skips_unstreamed Sample.tuesday
              (Sample.youtube "ready" "active" "good" 204) Sample.opening
              (<[(4%nat, "Special Notes") := "Live Captions|Manual Stream"]>
                 Sample.opening_sheet) 3%nat) as [H _].
  - reflexivity.
  - right. right. exists 4%nat, "Live Captions|Manual Stream".
    split; [| split].
    + apply (bool_decide_unpack _). vm_compute. exact I.
    + apply lookup_insert_eq.
    + apply (bool_decide_unpack _). vm_compute. exact I.
  - exact H.
Defined.

Lemma quiet_decide {A} (P : Prop) `{!Decision P} (m1 m2 : M A) :
  quiet m1 -> quiet m2 -> quiet (if decide P then m1 else m2).
Proof. by destruct (decide P). Qed.

Lemma quiet_read {A} (f : sheet -> A) : quiet (read f).
Proof. by intros sh. Qed.

#[local] Hint Resolve quiet_decide quiet_read : quiet.

Lemma quiet_youtube_broadcast_id self : quiet (youtube_broadcast_id self).
Proof. unfold youtube_broadcast_id. auto with quiet. Qed.

Lemma quiet_get_broadcast_status api self : quiet (get_broadcast_status api self).
Proof.
  unfold get_broadcast_status.
  apply quiet_bind; [apply quiet_youtube_broadcast_id |]. auto with quiet.
Qed.

Lemma quiet_get_stream_status d api self : quiet (get_stream_status d api self).
Proof. unfold get_stream_status. auto 10 with quiet. Qed.

#[local] Hint Resolve quiet_youtube_broadcast_id quiet_get_broadcast_status
  quiet_get_stream_status : quiet.

Lemma quiet_start_streaming d api self : quiet (start_streaming d api self).
Proof.
  unfold start_streaming, get_zoom_meeting_id.
  repeat first
    [ apply quiet_bind; [auto with quiet |]; intros ?
    | apply quiet_decide
    | match goal with |- quiet (let '(_, _) := ?x in _) => destruct x end
    | progress auto with quiet ].
Qed.

Lemma quiet_stop_streaming api self : quiet (stop_streaming api self).
Proof.
  unfold stop_streaming, get_zoom_meeting_id.
  repeat first
    [ apply quiet_bind; [auto with quiet |]; intros ?
    | apply quiet_decide
    | progress auto with quiet ].
Qed.

(** X13. [start_streaming] and [stop_streaming] never write to the sheet,
    whatever the sheet, the session and the providers' answers are and
    however the run ends. *)
Theorem streaming_leaves_sheet (d : Day) (api : providers) (self : Session)
    (sh : sheet) :
  (start_streaming d api self sh).1.2 = sh
  ∧ (stop_streaming api self sh).1.2 = sh.
Proof.
  split.
  - apply (quiet_start_streaming d api self sh).
  - apply (quiet_stop_streaming api self sh).
Qed.

(** X14. On a session without time slots, [start_streaming],
    [stop_streaming] and [schedule_zoom] raise [IndexError] before any
    call or message, and so do [session_time], [title_card_title] and
    [chat_channel_name]. *)
Theorem empty_session_raises (d : Day) (api : providers) (self : Session)
    (sh : sheet) :
  timeslots self = [] ->
  start_streaming d api self sh = (Raise IndexError, sh, [])
  ∧ stop_streaming api self sh = (Raise IndexError, sh, [])
  ∧ schedule_zoom d api self sh = (Raise IndexError, sh, [])
  ∧ session_time d self sh = Raise IndexError
  ∧ title_card_title d self sh = Raise IndexError
  ∧ chat_channel_name self sh = Raise IndexError.
Proof.
  intros Hnil.
  assert (Hread : ∀ item,
    try_read (timeslot_value self 0 item) sh = (Raise IndexError, sh, [])).
  { intros item. unfold try_read, timeslot_value. by rewrite Hnil, index_nil. }
  unfold start_streaming, stop_streaming, schedule_zoom.
  rewrite !(run_bind_raise _ _ _ _ _ _ (Hread _)).
  unfold title_card_title, session_time, chat_channel_name, timeslot_value.
  by rewrite Hnil, !index_nil.
Qed.

Lemma empty_session_raises_witness :
  start_streaming Sample.tuesday (Sample.youtube "ready" "active" "good" 204)
    (mk_session "VIS" "Opening" []) ∅ = (Raise IndexError, ∅, []).
Proof.
  by destruct (empty_session_raises Sample.tuesday
                 (Sample.youtube "ready" "active" "good" 204)
                 (mk_session "VIS" "Opening" []) ∅ eq_refl) as [H _].
Defined.

(* ===================================================================== *)
(** * Further properties: the Zoom meeting request *)
(* ===================================================================== *)

Lemma pick_hosts_snoc computer users u :
  pick_hosts computer (users ++ [u])
  = (if decide (Some u.1 = computer)
     then (Some u.2, (pick_hosts computer users).2)
     else ((pick_hosts computer users).1, (pick_hosts computer users).2 ++ [u.2])).
Proof. unfold pick_hosts. by rewrite foldl_app. Qed.

(** X15. Of the users of the Zoom account, [schedule_zoom] takes as host
    the last one whose last name is the session's computer, and as
    alternative hosts exactly the users whose last name is not, in the
    order of the listing. *)
Theorem pick_hosts_partition (computer : option string)
    (users : list (string * string)) :
  (pick_hosts computer users).1
  = snd <$> last (filter (fun u => Some u.1 = computer) users)
  ∧ (pick_hosts computer users).2
    = snd <$> filter (fun u => Some u.1 ≠ computer) users.
Proof.
  induction users as [|u users [IH1 IH2]] using rev_ind; [done |].
  rewrite pick_hosts_snoc, !filter_app, !filter_cons, !filter_nil.
  destruct (decide (Some u.1 = computer)) as [Hu|Hu].
  - rewrite decide_False by tauto. cbn [fst snd].
    by rewrite last_snoc, app_nil_r.
  - rewrite decide_True by done. cbn [fst snd].
    by rewrite app_nil_r, fmap_app, IH1, IH2.
Qed.

Lemma prepend_trace {B} (t : list effect) (x : result B * sheet * list effect) :
  (prepend t x).2 = t ++ x.2.
Proof. by destruct x as [[r sh] t']. Qed.

Lemma topic_length (s : string) :
  len (if 200 <? len s then slice0 199 s else s) <= 200.
Proof.
  destruct (Z.ltb_spec 200 (len s)); [| done].
  unfold len. pose proof (length_slice0 199 s). lia.
Qed.

(** X16. Once [session_time] returns, [schedule_zoom] lists the users and
    asks Zoom for a meeting whose topic has at most 200 characters and
    whose duration in minutes is the length of the session plus 10, plus
    15 of set-up unless the first time slot is Zoom Only, under the drawn
    password.  The host is the user named after the computer, the others
    being alternative hosts; when no user is named after the computer a
    warning is printed and the first user hosts alone. *)
Theorem schedule_zoom_request (d : Day) (api : providers) (self : Session)
    (sh : sheet) (r0 : nat) (st en : datetime) :
  head (timeslots self) = Some r0 ->
  session_time d self sh = Ok (st, en) ->
  let found := pick_hosts (sh !! (r0, "Computer")) (zoom_users api) in
  let setup := if decide (sh !! (r0, "Time Slot Type") ≠ Some "Zoom Only")
               then 15 else 0 in
  let duration := minutes_of en - minutes_of st + 10 + setup in
  ∃ topic,
    len topic <= 200
    ∧ (truthy found.1 = true ->
       ∃ rest,
         (schedule_zoom d api self sh).2
         = ZoomGetUsers
           :: ZoomCreateMeeting (default "" found.1) topic duration
                (drawn_password api) (String.concat "," found.2)
           :: rest)
    ∧ (truthy found.1 = false ->
       ∀ u users, zoom_users api = u :: users ->
       ∃ warning rest,
         (schedule_zoom d api self sh).2
         = ZoomGetUsers :: Print warning
           :: ZoomCreateMeeting u.2 topic duration (drawn_password api) ""
           :: rest).
Proof.
  intros Hhead Htime found setup duration.
  assert (Hst : try_read (session_time d self) sh = (Ok (st, en), sh, []))
    by (unfold try_read; by rewrite Htime).
  pose proof (setup_time_run self sh r0 Hhead) as Hsetup.
  eexists. split; [apply topic_length |].
  unfold schedule_zoom. do 2 run_step. fold found.
  split.
  - intros Hfound. rewrite Hfound. run_step. cbv beta iota. do 2 run_step.
    rewrite run_bind_emit, !prepend_trace. eexists. cbn [app fst snd].
    f_equal. f_equal. f_equal. unfold duration, setup. lia.
  - intros Hfound u users Husers. rewrite Hfound, Husers.
    do 2 run_step. rewrite (index_head (u :: users) u eq_refl).
    do 3 run_step. cbv beta iota. do 2 run_step.
    rewrite run_bind_emit, !prepend_trace.
    eexists _, _. cbn [app fst snd].
    f_equal. f_equal. f_equal. f_equal. unfold duration, setup. lia.
Qed.

Lemma schedule_zoom_request_witness :
  ∃ topic rest,
    (schedule_zoom Sample.tuesday (Sample.youtube "created" "inactive" "noData" 204)
       Sample.opening Sample.opening_sheet).2
    = ZoomGetUsers
      :: ZoomCreateMeeting "host-a" topic 100 "s3cr3tpw" "host-b" :: rest.
Proof.
  destruct (schedule_zoom_request Sample.tuesday
              (Sample.youtube "created" "inactive" "noData" 204)
              Sample.opening Sample.opening_sheet 3%nat
              (mk_datetime 2021 10 26 9 0 (-300)) (mk_datetime 2021 10 26 10 15 (-300)))
    as (topic & _ & H & _).
  - reflexivity.
  - vm_compute. reflexivity.
  - destruct H as [rest H]; [vm_compute; reflexivity |].
    exists topic, rest. rewrite H. f_equal.
Defined.

(* ===================================================================== *)
(** * Further properties: the registrant sync *)
(* ===================================================================== *)

Section Eventbrite.
Import Auth0.

Lemma fetch_pages_all page i count :
  (∀ j, (i <= j < i + count)%nat -> is_Some (page j)) ->
  fetch_pages page i count
  = concat ((fun j => default [] (page j)) <$> seq i count).
Proof.
  revert i. induction count as [|count IH]; intros i Hall; [done |].
  cbn. destruct (Hall i) as [l Hl]; [lia |]. rewrite Hl. cbn.
  rewrite IH; [done |]. intros j Hj. apply Hall. lia.
Qed.

Lemma fetch_pages_stop page i k count :
  (k < count)%nat ->
  (∀ j, (i <= j < i + k)%nat -> is_Some (page j)) ->
  page (i + k)%nat = None ->
  fetch_pages page i count
  = concat ((fun j => default [] (page j)) <$> seq i k).
Proof.
  revert i count. induction k as [|k IH]; intros i count Hk Hall Hnone.
  - destruct count as [|count]; [lia |]. cbn.
    replace (i + 0)%nat with i in Hnone by lia. by rewrite Hnone.
  - destruct count as [|count]; [lia |]. cbn.
    destruct (Hall i) as [l Hl]; [lia |]. rewrite Hl. cbn.
    rewrite (IH (S i) count); [done | lia | |].
    + intros j Hj. apply Hall. lia.
    + by replace (S i + k)%nat with (i + S k)%nat by lia.
Qed.

End Eventbrite.

(** X17. [get_new_eventbrite] returns the attendees of the pages 1, 2, ...
    in order, up to the page count when every page answers with
    attendees, and otherwise up to the page before the first answer
    without attendees: the pages after that one are not read. *)
Theorem get_new_eventbrite_pages (w : Auth0.world) :
  ((∀ j, (1 <= j <= Auth0.page_count w)%nat -> is_Some (Auth0.attendee_page w j)) ->
     Auth0.get_new_eventbrite w
     = concat ((fun j => default [] (Auth0.attendee_page w j))
                 <$> seq 1 (Auth0.page_count w)))
  ∧ (∀ k, (k < Auth0.page_count w)%nat ->
       (∀ j, (1 <= j <= k)%nat -> is_Some (Auth0.attendee_page w j)) ->
       Auth0.attendee_page w (S k) = None ->
       Auth0.get_new_eventbrite w
       = concat ((fun j => default [] (Auth0.attendee_page w j)) <$> seq 1 k)).
Proof.
  unfold Auth0.get_new_eventbrite. split.
  - intros Hall. apply fetch_pages_all. intros j Hj. apply Hall. lia.
  - intros k Hk Hall Hnone. apply (fetch_pages_stop _ 1 k); [done | |].
    + intros j Hj. apply Hall. lia.
    + done.
Qed.

Lemma get_new_eventbrite_pages_witness :
  Auth0.get_new_eventbrite
    (Auth0.mk_world 3
       (fun i => if decide (i = 2%nat) then None else Some [("Ann", "ann@vis.org")])
       [] true (fun _ => "") (fun p => p) "" None "" "")
  = [("Ann", "ann@vis.org")].
Proof.
  destruct (get_new_eventbrite_pages
              (Auth0.mk_world 3
                 (fun i => if decide (i = 2%nat) then None
                           else Some [("Ann", "ann@vis.org")])
                 [] true (fun _ => "") (fun p => p) "" None "" ""))
    as [_ H].
  rewrite (H 1%nat).
  - reflexivity.
  - cbn. lia.
  - intros j Hj. assert (j = 1%nat) as -> by lia. cbn. eauto.
  - reflexivity.
Defined.

Section Strip.
Import Auth0.

Lemma rstrip_idemp s : rstrip (rstrip s) = rstrip s.
Proof.
  induction s as [|c s IH]; [done |]. cbn [rstrip].
  destruct (rstrip s) as [|d t] eqn:Hr.
  - destruct (is_space c) eqn:Hc; [done |]. cbn [rstrip]. by rewrite Hc.
  - change (rstrip (String c (String d t)))
      with (match rstrip (String d t) with
            | EmptyString => if is_space c then EmptyString else String c EmptyString
            | u => String c u
            end).
    by rewrite IH.
Qed.

Lemma lstrip_not_space s :
  not_starting_with is_space (lstrip s) = true.
Proof.
  induction s as [|c s IH]; [done |]. cbn [lstrip].
  destruct (is_space c) eqn:Hc; [done |]. cbn [not_starting_with]. by rewrite Hc.
Qed.

Lemma rstrip_head s :
  not_starting_with is_space s = true ->
  not_starting_with is_space (rstrip s) = true.
Proof.
  destruct s as [|c s]; [done |]. cbn [not_starting_with rstrip].
  intros Hc. apply negb_true_iff in Hc.
  destruct (rstrip s); rewrite ?Hc; cbn [not_starting_with]; by rewrite Hc.
Qed.

Lemma lstrip_id s : not_starting_with is_space s = true -> lstrip s = s.
Proof.
  destruct s as [|c s]; [done |]. cbn [not_starting_with lstrip].
  intros Hc. apply negb_true_iff in Hc. by rewrite Hc.
Qed.

Lemma strip_idemp s : strip (strip s) = strip s.
Proof.
  unfold strip.
  rewrite (lstrip_id (rstrip (lstrip s)))
    by apply rstrip_head, lstrip_not_space.
  apply rstrip_idemp.
Qed.

End Strip.

Lemma elem_of_concat {A} (x : A) (ls : list (list A)) :
  x ∈ concat ls ↔ ∃ l, x ∈ l ∧ l ∈ ls.
Proof.
  induction ls as [|l ls IH]; cbn.
  - split; [by intros ?%elem_of_nil | by intros (l & _ & ?%elem_of_nil)].
  - rewrite elem_of_app, IH. split.
    + intros [Hx | (l' & Hx & Hl')].
      * exists l. split; [done | by left].
      * exists l'. split; [done | by right].
    + intros (l' & Hx & [-> | Hl']%elem_of_cons); [by left | right; eauto].
Qed.

(** X18. The password requests [get_any_password_requests] returns are
    exactly the lines of the files whose name starts with
    password_request, stripped of surrounding whitespace, that are not
    empty; stripping such an entry again does not change it. *)
Theorem password_requests_are_stripped_lines (w : Auth0.world) (e : string) :
  e ∈ Auth0.get_any_password_requests w
  ↔ e ≠ ""
    ∧ Auth0.strip e = e
    ∧ ∃ f lines line,
        (f, lines) ∈ Auth0.directory w
        ∧ is_Some (strip_prefix "password_request" f)
        ∧ line ∈ lines
        ∧ e = Auth0.strip line.
Proof.
  unfold Auth0.get_any_password_requests, Auth0.request_lines.
  rewrite elem_of_concat. split.
  - intros (l & He & Hl).
    apply list_elem_of_fmap in Hl as ([f lines] & -> & Hf).
    apply list_elem_of_filter in Hf as [Hname Hf]. cbn in He.
    apply list_elem_of_filter in He as [Hlen He].
    apply list_elem_of_fmap in He as (line & -> & Hline).
    split; [| split].
    + intros Hempty. rewrite Hempty in Hlen. unfold len in Hlen.
      cbn [String.length] in Hlen. lia.
    + apply strip_idemp.
    + exists f, lines, line. split; [done |]. split; [| done].
      unfold Auth0.is_request_file in Hname. cbn in Hname.
      by apply bool_decide_eq_true in Hname.
  - intros (Hne & _ & f & lines & line & Hf & Hname & Hline & ->).
    exists (filter (fun l => 0 < len l) (Auth0.strip <$> lines)). split.
    + apply list_elem_of_filter. split.
      * unfold len. destruct (Auth0.strip line); [done | cbn [String.length]; lia].
      * apply list_elem_of_fmap. eauto.
    + apply list_elem_of_fmap. exists (f, lines). split; [done |].
      apply list_elem_of_filter. split; [| done].
      unfold Auth0.is_request_file. cbn. by apply bool_decide_eq_true.
Qed.
